(** * Decoders for scanned signing requests ([src/utils/decoders.ts])

    A shallow embedding of [rawDataToU8A], [constructDataFromBytes] and
    [encodeNumber], together with the JavaScript string and number
    primitives they are written with, followed by the properties of the
    decoding pipeline.

    Conventions.
    - A JavaScript string is a list of code units; only the code units
      0..255 are represented ([ascii]).  Every string the decoders build
      themselves is made of hexadecimal digits.
    - A [Uint8Array] is a [list byte].
    - A JavaScript number that can be [NaN] is an [option Z] with [None]
      for [NaN]; all numbers that occur are integers below 2^53.
    - A function that can throw returns a [Completion]. *)

From Stdlib Require Import ZArith Ascii String Strings.Byte Bool Lia DecimalString List.
Import ListNotations.
Open Scope Z_scope.

(* ================================================================= *)
(** ** JavaScript strings *)

Definition str := list ascii.

(** String literal. *)
Definition lit (s : string) : str := list_ascii_of_string s.

Definition len (s : str) : Z := Z.of_nat (length s).

(** [s === t] on strings. *)
Fixpoint str_eqb (s t : str) : bool :=
  match s, t with
  | [], [] => true
  | a :: s', b :: t' => Ascii.eqb a b && str_eqb s' t'
  | _, _ => false
  end.

(** [s.substr(start, length)]; [None] stands for an omitted [length].
    A negative [start] counts from the end, a negative [length] is 0. *)
Definition substr (s : str) (start : Z) (length : option Z) : str :=
  let size := len s in
  let from := if start <? 0 then Z.max (size + start) 0 else Z.min start size in
  let count :=
    match length with
    | None => size - from
    | Some n => Z.min (Z.max n 0) (size - from)
    end in
  firstn (Z.to_nat count) (skipn (Z.to_nat from) s).

(** [s.slice(start, end)]; [None] stands for an omitted [end].
    Negative indices count from the end. *)
Definition slice (s : str) (start : Z) (end_ : option Z) : str :=
  let size := len s in
  let rel i := if i <? 0 then Z.max (size + i) 0 else Z.min i size in
  let from := rel start in
  let to := match end_ with None => size | Some e => rel e end in
  firstn (Z.to_nat (Z.max (to - from) 0)) (skipn (Z.to_nat from) s).

(** [s[i]]: a one-character string, or [undefined] ([None]). *)
Definition char_at (s : str) (i : nat) : option str :=
  option_map (fun c => [c]) (nth_error s i).

(* ================================================================= *)
(** ** [parseInt] *)

(** White space and line terminators skipped by [parseInt]. *)
Definition isWhiteSpace (c : ascii) : bool :=
  let n := nat_of_ascii c in
  (Nat.eqb n 9 || Nat.eqb n 10 || Nat.eqb n 11 || Nat.eqb n 12
   || Nat.eqb n 13 || Nat.eqb n 32 || Nat.eqb n 160)%bool.

(** Value of a character as a digit: 0-9, then a-z or A-Z for 10..35. *)
Definition digit_value (c : ascii) : option Z :=
  let n := Z.of_nat (nat_of_ascii c) in
  if (48 <=? n) && (n <=? 57) then Some (n - 48)
  else if (97 <=? n) && (n <=? 122) then Some (n - 87)
  else if (65 <=? n) && (n <=? 90) then Some (n - 55)
  else None.

Fixpoint skip_white (s : str) : str :=
  match s with
  | c :: t => if isWhiteSpace c then skip_white t else s
  | [] => []
  end.

(** Reads the longest prefix of digits of radix [R]; [acc] is the value
    read so far, [None] before the first digit. *)
Fixpoint parse_digits (R : Z) (s : str) (acc : option Z) : option Z :=
  match s with
  | c :: t =>
      match digit_value c with
      | Some d =>
          if d <? R
          then parse_digits R t
                 (Some (match acc with None => d | Some a => a * R + d end))
          else acc
      | None => acc
      end
  | [] => acc
  end.

Definition has_0x (s : str) : bool :=
  match s with
  | a :: b :: _ =>
      Ascii.eqb a "0"%char && (Ascii.eqb b "x"%char || Ascii.eqb b "X"%char)
  | _ => false
  end.

(** [parseInt(s, radix)]; the result [None] is [NaN].  (A result [-0] is
    the integer 0: the callers only compare, add and multiply it.) *)
Definition parseInt (s : str) (radix : Z) : option Z :=
  let s1 := skip_white s in
  let '(sign, s2) :=
    match s1 with
    | c :: t =>
        if Ascii.eqb c "-"%char then (-1, t)
        else if Ascii.eqb c "+"%char then (1, t)
        else (1, s1)
    | [] => (1, s1)
    end in
  if negb (radix =? 0) && ((radix <? 2) || (36 <? radix)) then None
  else
    let strip := (radix =? 0) || (radix =? 16) in
    let R0 := if radix =? 0 then 10 else radix in
    let '(R, s3) :=
      if strip && has_0x s2 then (16, skipn 2 s2) else (R0, s2) in
    option_map (Z.mul sign) (parse_digits R s3 None).

(** [x || 0] on a number: [NaN] and 0 give 0. *)
Definition or_zero (x : option Z) : Z :=
  match x with Some n => n | None => 0 end.

(** [x > n] on numbers: false when [x] is [NaN]. *)
Definition num_gt (x : option Z) (n : Z) : bool :=
  match x with Some v => n <? v | None => false end.

(* ================================================================= *)
(** ** Bytes and typed arrays *)

Definition Z_of_byte (b : byte) : Z := Z.of_N (Byte.to_N b).

(** Storing a number into a [Uint8Array]: modulo 256. *)
Definition byte_of_Z (z : Z) : byte :=
  match Byte.of_N (Z.to_N (z mod 256)) with
  | Some b => b
  | None => x00
  end.

(** Storing a number that may be [NaN]: [NaN] is stored as 0. *)
Definition toUint8 (x : option Z) : byte :=
  match x with Some z => byte_of_Z z | None => x00 end.

(** [ToInt32], applied by the operators [>>] and [&]. *)
Definition toInt32 (z : Z) : Z := (z + 2 ^ 31) mod 2 ^ 32 - 2 ^ 31.

(* ================================================================= *)
(** ** Completions *)

(** The conditions under which the decoders throw, named after the
    [throw] statement that creates the error:
    - [MalformedFrame]: line 108, [new Error(strings.ERROR_WRONG_RAW)];
    - [MalformedAction]: line 155, [new Error()];
    - [UnknownNetwork]: line 189, [new Error()] after
      [console.error(strings.ERROR_NO_NETWORK)];
    - [MalformedSubstratePayload]: line 222;
    - [UnrecognizedPayloadType]: line 229;
    - [UnknownError]: line 235;
    - [ImportedError]: an error thrown by an imported function. *)
Inductive ErrorKind :=
| MalformedFrame
| MalformedAction
| UnknownNetwork
| MalformedSubstratePayload
| UnrecognizedPayloadType
| UnknownError
| ImportedError.

(** What a [throw] carries: an [Error] object with its message, labelled
    with the condition that raised it; the [RangeError] of a typed-array
    constructor given an invalid length (its message is the engine's); or
    a value that is not an [Error] at all. *)
Inductive Exception :=
| Error (kind : ErrorKind) (message : str)
| RangeError (length : Z)
| NotAnError.

Inductive Completion (A : Type) :=
| Return (a : A)
| Throw (e : Exception).
Arguments Return {A} a.
Arguments Throw {A} e.

Definition bind {A B} (c : Completion A) (k : A -> Completion B)
  : Completion B :=
  match c with
  | Return a => k a
  | Throw e => Throw e
  end.

Notation "x <- c ;; k" := (bind c (fun x => k))
  (at level 61, c at next level, right associativity).

(** [try { c } catch (e) { throw h(e) }]. *)
Definition try_catch {A} (c : Completion A) (h : Exception -> Exception)
  : Completion A :=
  match c with
  | Return a => Return a
  | Throw e => Throw (h e)
  end.

(* ================================================================= *)
(** ** [rawDataToU8A] *)

(** The loop [while (rawData.substr(-4) === 'ec11') ...]; every turn
    removes four characters, so [length rawData] turns are enough
    (see [strip_ec11_exit]). *)
Fixpoint strip_ec11 (fuel : nat) (rawData : str) : str :=
  match fuel with
  | O => rawData
  | S fuel' =>
      if str_eqb (substr rawData (-4) None) (lit "ec11")
      then strip_ec11 fuel' (substr rawData 0 (Some (len rawData - 4)))
      else rawData
  end.

(** [new Uint8Array(length)] filled by the loop
    [bytes[i] = parseInt(rawData.substr(i * 2, 2), 16)]. *)
Definition fill_bytes (rawData : str) (length : Z)
  : Completion (option (list byte)) :=
  if length <? 0 then Throw (RangeError length)
  else
    Return (Some
      (map (fun i => toUint8 (parseInt (substr rawData (Z.of_nat i * 2) (Some 2)) 16))
           (seq 0 (Z.to_nat length)))).

(** Lines 59-80: the length prefix is read on one byte, else on two,
    whichever matches the length of [rawData]; then the bytes are read.
    The result [Return None] is [null]. *)
Definition strip_length_prefix (rawData : str)
  : Completion (option (list byte)) :=
  let length8 := or_zero (parseInt (substr rawData 0 (Some 2)) 16) in
  let length16 := or_zero (parseInt (substr rawData 0 (Some 4)) 16) in
  if length8 * 2 + 2 =? len rawData
  then fill_bytes (substr rawData 2 None) length8
  else if length16 * 2 + 4 =? len rawData
  then fill_bytes (substr rawData 4 None) length16
  else Return None.

Definition rawDataToU8A (rawData : str) : Completion (option (list byte)) :=
  match rawData with
  | [] => Return None
  | _ =>
      (* Strip filler bytes padding at the end *)
      let rawData :=
        if str_eqb (substr rawData (-2) None) (lit "ec")
        then substr rawData 0 (Some (len rawData - 2))
        else rawData in
      let rawData := strip_ec11 (length rawData) rawData in
      (* Verify that the QR encoding is binary and it's ending with a
         proper terminator *)
      if negb (str_eqb (substr rawData 0 (Some 1)) (lit "4"))
         || negb (str_eqb (substr rawData (-1) None) (lit "0"))
      then Return None
      else
        (* Strip the encoding indicator and terminator *)
        let rawData := substr rawData 1 (Some (len rawData - 2)) in
        strip_length_prefix rawData
  end.

(* ================================================================= *)
(** ** [encodeNumber] *)

(** [new Uint8Array([value >> 8, value & 0xff])]. *)
Definition encodeNumber (value : Z) : list byte :=
  [ byte_of_Z (Z.shiftr (toInt32 value) 8);
    byte_of_Z (Z.land (toInt32 value) 255) ].

(* ================================================================= *)
(** ** Hexadecimal helpers imported from [@polkadot/util] *)

(** The imported helpers are modelled by their documented behaviour;
    an error they throw is an [Error] of kind [ImportedError]. *)

Definition hexchar (d : Z) : ascii :=
  nth (Z.to_nat d) (lit "0123456789abcdef") "0"%char.

(** One byte as two lower-case hexadecimal digits. *)
Definition hex_of_byte (b : byte) : str :=
  [hexchar (Z_of_byte b / 16); hexchar (Z_of_byte b mod 16)].

Definition hex_of_bytes (value : list byte) : str :=
  flat_map hex_of_byte value.

(** [u8aToHex(value, -1, isPrefixed)]. *)
Definition u8aToHex (value : list byte) (isPrefixed : bool) : str :=
  (if isPrefixed then lit "0x" else []) ++ hex_of_bytes value.

Definition isHexDigit (c : ascii) : bool :=
  match digit_value c with Some d => d <? 16 | None => false end.

Definition expected_hex (value : str) : Exception :=
  Error ImportedError
    (lit "Expected hex value to convert, found '" ++ value ++ lit "'").

(** [hexStripPrefix(value)]. *)
Definition hexStripPrefix (value : str) : Completion str :=
  if str_eqb value [] || str_eqb value (lit "0x") then Return []
  else if str_eqb (substr value 0 (Some 2)) (lit "0x")
          && forallb isHexDigit (substr value 2 None)
  then Return (substr value 2 None)
  else if forallb isHexDigit value then Return value
  else Throw (expected_hex value).

(** The bytes of the digit pairs of [s]. *)
Fixpoint hex_pairs (s : str) : list byte :=
  match s with
  | a :: b :: t => toUint8 (parseInt [a; b] 16) :: hex_pairs t
  | _ => []
  end.

(** [hexToU8a(value)]: the empty string gives the empty array; otherwise
    [value] must be [0x] followed by an even number of digits. *)
Definition hexToU8a (value : str) : Completion (list byte) :=
  match value with
  | [] => Return []
  | _ =>
      if str_eqb (substr value 0 (Some 2)) (lit "0x")
         && forallb isHexDigit (substr value 2 None)
         && Nat.even (length value)
      then Return (hex_pairs (substr value 2 None))
      else Throw (expected_hex value)
  end.

(** A number below 2^53 in decimal. *)
Definition dec_of_Z (z : Z) : str :=
  lit (NilZero.string_of_int (Z.to_int z)).

Fixpoint join (sep : str) (l : list str) : str :=
  match l with
  | [] => []
  | [x] => x
  | x :: t => x ++ sep ++ join sep t
  end.

(** A [Uint8Array] converted to a string by [+]: its elements in decimal,
    separated by commas. *)
Definition u8a_toString (bytes : list byte) : str :=
  join (lit ",") (map (fun b => dec_of_Z (Z_of_byte b)) bytes).

(* ================================================================= *)
(** ** Data model *)

(** [SubstrateNetworkParams] (declared in [types/networkTypes]); the
    decoder reads only its [prefix]. *)
Record SubstrateNetworkParams := { prefix : Z }.

(** [Map<string, SubstrateNetworkParams>] as the list of its entries,
    whose keys are distinct. *)
Definition NetworkMap := list (str * SubstrateNetworkParams).

(** [networks.get(key)]. *)
Fixpoint Map_get (networks : NetworkMap) (key : str)
  : option SubstrateNetworkParams :=
  match networks with
  | [] => None
  | (k, v) :: rest => if str_eqb k key then Some v else Map_get rest key
  end.

Inductive Action := signData | signTransaction.
Inductive Crypto := ed25519 | sr25519.

(** [SubstrateMultiParsedData]. *)
Record SubstrateMultiParsedData := {
  currentFrame : option Z;
  frameCount : option Z;
  isMultipart : bool;
  partData : str
}.

(** [EthereumParsedData]; [eth_account], [eth_rlp] and [eth_data] are
    the fields [account], [rlp] and [data] of its [data] object.  A field
    that is [undefined] or was never assigned is [None]. *)
Record EthereumParsedData := {
  eth_action : Action;
  eth_account : str;
  eth_rlp : option str;
  eth_data : option str
}.

(** The three shapes of [data.data.data] in a Substrate result. *)
Inductive PayloadData :=
| Hashed (hash : str)         (* await blake2b(...) *)
| RawBytes (raw : list byte)  (* rawPayload *)
| HexString (hex : str).      (* hexPayload *)

(** [SubstrateCompletedParsedData]; the fields from [crypto] on are
    those of its [data] object.  [None] is [null] for [crypto], [NaN]
    for [specVersion] and a field never assigned for the others. *)
Record SubstrateCompletedParsedData := {
  action : option Action;
  oversized : option bool;
  isHash : option bool;
  crypto : option Crypto;
  specVersion : option Z;
  genesisHash : str;
  rawPayload : option (list byte);
  data : option PayloadData;
  account : option str
}.

Inductive ParsedData :=
| MultiPart (d : SubstrateMultiParsedData)
| Ethereum (d : EthereumParsedData)
| Substrate (d : SubstrateCompletedParsedData).

(** What the decoder imports and this file does not define:
    [strings.ERROR_WRONG_RAW] ([modules/sign/strings]), [blake2b]
    ([utils/native], awaited), and of [@polkadot/util] and
    [@polkadot/util-crypto] the offset returned by [compactFromU8a] and
    [encodeAddress].  ([strings.ERROR_NO_NETWORK] is only written to the
    console.) *)
Class Host := {
  ERROR_WRONG_RAW : str;
  blake2b : str -> Completion str;
  compactFromU8a : list byte -> Completion nat;
  encodeAddress : list byte -> Z -> Completion str
}.

(* from https://github.com/maciejhirsz/uos#substrate-payload *)
Definition CRYPTO_ED25519 := lit "00".
Definition CRYPTO_SR25519 := lit "01".
Definition CMD_SIGN_MORTAL := lit "00".
Definition CMD_SIGN_HASH := lit "01".
Definition CMD_SIGN_IMMORTAL := lit "02".
Definition CMD_SIGN_MSG := lit "03".

(* ================================================================= *)
(** ** [constructDataFromBytes] *)

(** [case '45']: Ethereum UOS payload (lines 133-159). *)
Definition ethereum_payload (uosAfterFrames firstByte : str)
  : Completion ParsedData :=
  let action :=
    if str_eqb firstByte (lit "00") || str_eqb firstByte (lit "01")
    then Some signData
    else if str_eqb firstByte (lit "01") then Some signTransaction
    else None in
  let address := substr uosAfterFrames 4 (Some 44) in
  match action with
  | Some signData =>
      Return (Ethereum {| eth_action := signData; eth_account := address;
                          eth_rlp := char_at uosAfterFrames 13;
                          eth_data := None |})
  | Some signTransaction =>
      Return (Ethereum {| eth_action := signTransaction; eth_account := address;
                          eth_rlp := None;
                          eth_data := char_at uosAfterFrames 13 |})
  | None => Throw (Error MalformedAction [])
  end.

(** The [switch (secondByte)] of [case '53'] (lines 192-219), on the
    values computed before it. *)
Definition substrate_command `{Host}
  (secondByte : str) (crypto : option Crypto) (publicKeyAsBytes : list byte)
  (hexPayload : str) (specVersion : option Z) (genesisHash : str)
  (rawPayload : list byte) (isOversized : bool)
  (network : SubstrateNetworkParams)
  : Completion SubstrateCompletedParsedData :=
  if str_eqb secondByte CMD_SIGN_MORTAL
     || str_eqb secondByte CMD_SIGN_IMMORTAL
  then
    offset <- compactFromU8a rawPayload ;;
    let payload := skipn offset rawPayload in
    data <- (if isOversized
             then h <- blake2b (u8aToHex payload false) ;; Return (Hashed h)
             else Return (RawBytes rawPayload)) ;;
    account <- encodeAddress publicKeyAsBytes (prefix network) ;;
    Return {| action := Some signTransaction;
              oversized := Some isOversized;
              isHash := Some isOversized;
              crypto := crypto;
              specVersion := specVersion;
              genesisHash := genesisHash;
              rawPayload := Some rawPayload;
              data := Some data;
              account := Some account |}
  else if str_eqb secondByte CMD_SIGN_HASH
          || str_eqb secondByte CMD_SIGN_MSG
  then
    account <- encodeAddress publicKeyAsBytes (prefix network) ;;
    Return {| action := Some signData;
              oversized := Some false;
              isHash := Some (str_eqb secondByte CMD_SIGN_HASH);
              crypto := crypto;
              specVersion := specVersion;
              genesisHash := genesisHash;
              rawPayload := None;
              data := Some (HexString hexPayload);
              account := Some account |}
  else
    Return {| action := None; oversized := None; isHash := None;
              crypto := crypto;
              specVersion := specVersion;
              genesisHash := genesisHash;
              rawPayload := None; data := None; account := None |}.

(** [data.data.crypto] (lines 167-172). *)
Definition crypto_of (firstByte : str) : option Crypto :=
  if str_eqb firstByte CRYPTO_ED25519 then Some ed25519
  else if str_eqb firstByte CRYPTO_SR25519 then Some sr25519
  else None.

(** The body of the inner [try] of [case '53'] (lines 167-219). *)
Definition substrate_payload `{Host}
  (uosAfterFrames firstByte secondByte : str) (networks : NetworkMap)
  : Completion SubstrateCompletedParsedData :=
  let crypto := crypto_of firstByte in
  let pubKeyHex := substr uosAfterFrames 6 (Some 64) in
  publicKeyAsBytes <- hexToU8a (lit "0x" ++ pubKeyHex) ;;
  let hexEncodedData := lit "0x" ++ slice uosAfterFrames 70 None in
  let hexPayload := slice hexEncodedData 0 (Some (-64)) in
  let specVersion := parseInt (substr hexEncodedData (-70) (Some (-64))) 10 in
  let genesisHash := lit "0x" ++ substr hexEncodedData (-64) None in
  rawPayload <- hexToU8a hexPayload ;;
  let isOversized := 256 <? Z.of_nat (length rawPayload) in
  match Map_get networks genesisHash with
  | None => Throw (Error UnknownNetwork [])
  | Some network =>
      substrate_command secondByte crypto publicKeyAsBytes hexPayload
        specVersion genesisHash rawPayload isOversized network
  end.

(** The inner [catch] (lines 220-223) replaces whatever was thrown. *)
Definition substrate_catch (uosAfterFrames : str) (e : Exception) : Exception :=
  Error MalformedSubstratePayload
    (lit "Something went wrong decoding the Substrate UOS payload: "
     ++ uosAfterFrames).

(** The outer [catch] (lines 231-238): an [Error] is thrown again with
    its message, anything else as ['unknown error :(']. *)
Definition outer_catch (e : Exception) : Exception :=
  match e with
  | Error kind message => Error kind message
  | RangeError n => RangeError n
  | NotAnError => Error UnknownError (lit "unknown error :(")
  end.

(** Lines 124-238: the payload that follows the frame header. *)
Definition decode_uos `{Host}
  (bytes : list byte) (uosAfterFrames : str) (networks : NetworkMap)
  : Completion ParsedData :=
  let zerothByte := substr uosAfterFrames 0 (Some 2) in
  let firstByte := substr uosAfterFrames 2 (Some 2) in
  let secondByte := substr uosAfterFrames 4 (Some 2) in
  try_catch
    (if str_eqb zerothByte (lit "45")
     then ethereum_payload uosAfterFrames firstByte
     else if str_eqb zerothByte (lit "53")
     then
       d <- try_catch
              (substrate_payload uosAfterFrames firstByte secondByte networks)
              (substrate_catch uosAfterFrames) ;;
       Return (Substrate d)
     else
       Throw (Error UnrecognizedPayloadType
                (lit "Payload is not formated correctly: "
                 ++ u8a_toString bytes)))
    outer_catch.

Definition constructDataFromBytes `{Host}
  (bytes : list byte) (multipartComplete : bool) (networks : NetworkMap)
  : Completion ParsedData :=
  frameInfo <- hexStripPrefix (u8aToHex (firstn 5 bytes) true) ;;
  let frameCount := parseInt (substr frameInfo 2 (Some 4)) 16 in
  let isMultipart := num_gt frameCount 1 in
  if num_gt frameCount 50 then Throw (Error MalformedFrame ERROR_WRONG_RAW)
  else
    let currentFrame := parseInt (substr frameInfo 6 (Some 4)) 16 in
    uosAfterFrames <- hexStripPrefix (u8aToHex (skipn 5 bytes) true) ;;
    if isMultipart && negb multipartComplete
    then Return (MultiPart {| currentFrame := currentFrame;
                              frameCount := frameCount;
                              isMultipart := isMultipart;
                              partData := uosAfterFrames |})
    else decode_uos bytes uosAfterFrames networks.

(** The kind of the error a call fails with, if it fails with one. *)
Definition error_kind {A} (c : Completion A) : option ErrorKind :=
  match c with
  | Throw (Error kind _) => Some kind
  | _ => None
  end.

(* ================================================================= *)
(** ** The frame format read by [rawDataToU8A] *)

(** The format described above [constructDataFromBytes] ("Example Full
    Raw Data"): the digit 4, the length of the data on one or on two
    bytes, the data, the terminator 0, then the filler bytes [ec 11]
    repeated, possibly cut after an [ec]. *)
Inductive PrefixWidth := OneByte | TwoBytes.

Definition length_prefix (w : PrefixWidth) (n : Z) : str :=
  match w with
  | OneByte => hex_of_bytes [byte_of_Z n]
  | TwoBytes => hex_of_bytes (encodeNumber n)
  end.

(** The largest count a prefix of width [w] can hold. *)
Definition max_count (w : PrefixWidth) : Z :=
  match w with OneByte => 255 | TwoBytes => 65535 end.

Definition filler (repeats : nat) (cut : bool) : str :=
  concat (repeat (lit "ec11") repeats) ++ (if cut then lit "ec" else []).

Definition frame_encoding (w : PrefixWidth) (b : list byte)
  (repeats : nat) (cut : bool) : str :=
  lit "4" ++ length_prefix w (Z.of_nat (length b)) ++ hex_of_bytes b
  ++ lit "0" ++ filler repeats cut.

(** The frame header of a payload: one reserved byte, the frame count
    and the index of the frame, each on two bytes, big-endian. *)
Definition be16 (hi lo : byte) : Z := 256 * Z_of_byte hi + Z_of_byte lo.

(** What lines 104-109 read in the first five bytes of an input, also
    when the input is shorter than a header: the frame count is bytes 1
    and 2 big-endian, or byte 1 alone when there is no byte 2; the index
    of the frame is bytes 3 and 4 big-endian, or byte 3 alone when there
    is no byte 4; [None] is [NaN] (see [read_header]). *)
Definition header_frameCount (bytes : list byte) : option Z :=
  match bytes with
  | _ :: c1 :: c2 :: _ => Some (be16 c1 c2)
  | [_; c1] => Some (Z_of_byte c1)
  | _ => None
  end.

Definition header_currentFrame (bytes : list byte) : option Z :=
  match bytes with
  | _ :: _ :: _ :: i1 :: i2 :: _ => Some (be16 i1 i2)
  | [_; _; _; i1] => Some (Z_of_byte i1)
  | _ => None
  end.

(** The Substrate payload as the specification lays it out (section 6,
    "Substrate body"): after the 5 bytes of header, the discriminator
    0x53, one byte of crypto scheme, one command byte, the 32-byte
    public key, the signing payload, 4 bytes of specVersion and the
    32-byte genesis hash. *)
Definition spec_substrate_frame
  (reserved c1 c2 i1 i2 scheme command : byte)
  (publicKey signingPayload specVersionBytes genesis : list byte)
  : list byte :=
  reserved :: c1 :: c2 :: i1 :: i2 :: x53 :: scheme :: command
  :: publicKey ++ signingPayload ++ specVersionBytes ++ genesis.

(** A payload is complete, and decoded, when its frame count is within
    the ceiling and either it is a lone frame or the caller says that
    all the frames are there. *)
Definition complete (c1 c2 : byte) (multipartComplete : bool) : Prop :=
  be16 c1 c2 <= 50 /\ (be16 c1 c2 <= 1 \/ multipartComplete = true).

(* ================================================================= *)
(** ** [asciiToHex] and [isAddressString] *)

(** [message.charCodeAt(i)]. *)
Definition charCodeAt (c : ascii) : Z := Z.of_nat (nat_of_ascii c).

(** The digits of [n] in base 16, most significant first, before [acc];
    a number [n >= 0] has at most [1 + log2 n] of them. *)
Fixpoint digits16 (fuel : nat) (n : Z) (acc : str) : str :=
  match fuel with
  | O => acc
  | S fuel' =>
      let acc' := hexchar (n mod 16) :: acc in
      if n / 16 =? 0 then acc' else digits16 fuel' (n / 16) acc'
  end.

(** [Number(n).toString(16)] for an integer [n >= 0]: no leading zero. *)
Definition toString16 (n : Z) : str :=
  digits16 (S (Z.to_nat (Z.log2 n))) n [].

(** The loop pushes the digits of every character code; [join('')]
    concatenates them. *)
Definition asciiToHex (message : str) : str :=
  concat (map (fun c => toString16 (charCodeAt c)) message).

Definition isAddressString (s : str) : bool :=
  match s with
  | [] => false
  | _ =>
      str_eqb (substr s 0 (Some 2)) (lit "0x")
      || str_eqb (substr s 0 (Some 9)) (lit "ethereum:")
      || str_eqb (substr s 0 (Some 10)) (lit "substrate:")
  end.

(* ================================================================= *)
(** ** [decodeToString] *)

(** The string that has one code unit per byte of [message]. *)
Definition code_units (message : list byte) : str :=
  map ascii_of_byte message.

(** [String.fromCharCode.apply(null, Array.from(message))] passes every
    byte as an argument of one call: it returns [code_units message]
    when the engine accepts that many arguments, and throws a
    [RangeError] ([None]) beyond [max_arguments], a limit that the
    engine sets and the language does not. *)
Definition fromCharCode (max_arguments : nat) (message : list byte)
  : option str :=
  if (length message <=? max_arguments)%nat
  then Some (code_units message)
  else None.

(** The characters that [escape] leaves as they are. *)
Definition escape_unreserved (c : ascii) : bool :=
  existsb (Ascii.eqb c)
    (lit "ABCDEFGHIJKLMNOPQRSTUVWXYZabcdefghijklmnopqrstuvwxyz0123456789@*_+-./").

Definition HEXCHAR (d : Z) : ascii :=
  nth (Z.to_nat d) (lit "0123456789ABCDEF") "0"%char.

(** [escape(s)] on code units below 256: every other character becomes
    [%] and two upper-case hexadecimal digits. *)
Definition escape (s : str) : str :=
  flat_map
    (fun c =>
       if escape_unreserved c then [c]
       else ["%"%char; HEXCHAR (charCodeAt c / 16);
             HEXCHAR (charCodeAt c mod 16)])
    s.

(** An escape sequence [%XY] at the head of [s]: its value and what
    follows it. *)
Definition percent_octet (s : str) : option (Z * str) :=
  match s with
  | p :: a :: b :: rest =>
      if Ascii.eqb p "%" then
        match digit_value a, digit_value b with
        | Some x, Some y =>
            if (x <? 16) && (y <? 16) then Some (16 * x + y, rest) else None
        | _, _ => None
        end
      else None
  | _ => None
  end.

(** [n] continuation octets [10xxxxxx], each adding six bits to [acc]. *)
Fixpoint continuation (n : nat) (s : str) (acc : Z) : option (Z * str) :=
  match n with
  | O => Some (acc, s)
  | S n' =>
      match percent_octet s with
      | Some (B, rest) =>
          if Z.land B 192 =? 128
          then continuation n' rest (acc * 64 + Z.land B 63)
          else None
      | None => None
      end
  end.

(** Whether [V] is a code point that UTF-8 encodes on [n] octets: not
    over-long, no surrogate, at most 0x10FFFF. *)
Definition valid_code_point (n : nat) (V : Z) : bool :=
  match n with
  | 2%nat => 128 <=? V
  | 3%nat => (2048 <=? V) && negb ((55296 <=? V) && (V <=? 57343))
  | 4%nat => (65536 <=? V) && (V <=? 1114111)
  | _ => false
  end.

(** The UTF-16 code units of a code point. *)
Definition utf16 (V : Z) : list Z :=
  if V <? 65536 then [V]
  else [55296 + Z.shiftr (V - 65536) 10; 56320 + Z.land (V - 65536) 1023].

(** The loop of [decodeURIComponent]; [None] is a thrown [URIError].
    Every turn consumes a character, so [length s] turns are enough
    (see [Decode_fuel]). *)
Fixpoint Decode (fuel : nat) (s : str) : option (list Z) :=
  match s with
  | [] => Some []
  | c :: t =>
      match fuel with
      | O => None
      | S fuel' =>
          if negb (Ascii.eqb c "%")
          then option_map (cons (charCodeAt c)) (Decode fuel' t)
          else
            match percent_octet s with
            | None => None
            | Some (B, rest) =>
                if B <? 128 then option_map (cons B) (Decode fuel' rest)
                else if B <? 192 then None
                else
                  let '(n, bits) :=
                    if B <? 224 then (2%nat, Z.land B 31)
                    else if B <? 240 then (3%nat, Z.land B 15)
                    else if B <? 248 then (4%nat, Z.land B 7)
                    else (5%nat, 0) in
                  match continuation (n - 1) rest bits with
                  | None => None
                  | Some (V, rest') =>
                      if valid_code_point n V
                      then option_map (app (utf16 V)) (Decode fuel' rest')
                      else None
                  end
            end
      end
  end.

(** [decodeURIComponent(s)]: the UTF-16 code units of the result. *)
Definition decodeURIComponent (s : str) : option (list Z) :=
  Decode (length s) s.

(** What [decodeToString] does: it returns a text, as its UTF-16 code
    units, or throws the [URIError] of [decodeURIComponent] or the
    [RangeError] of the call of [String.fromCharCode]. *)
Inductive Decoded :=
| Text (units : list Z)
| ThrowsURIError
| ThrowsRangeError.

Definition decodeToString (max_arguments : nat) (message : list byte)
  : Decoded :=
  match fromCharCode max_arguments message with
  | None => ThrowsRangeError
  | Some encodedString =>
      match decodeURIComponent (escape encodedString) with
      | Some text => Text text
      | None => ThrowsURIError
      end
  end.

(** [decodeURIComponent(escape(...))] on the code units of [message]. *)
Definition decode_units (message : list byte) : option (list Z) :=
  decodeURIComponent (escape (code_units message)).

(** The messages of the errors thrown at lines 222 and 229. *)
Definition substrate_message (uosAfterFrames : str) : str :=
  lit "Something went wrong decoding the Substrate UOS payload: "
  ++ uosAfterFrames.

Definition unrecognized_message (bytes : list byte) : str :=
  lit "Payload is not formated correctly: " ++ u8a_toString bytes.

(** Every character, for case analyses by computation. *)
Definition all_ascii : list ascii := map ascii_of_nat (seq 0 256).

(* ================================================================= *)
(** ** Sample inputs *)

(** A host to run the decoder on examples: [compactFromU8a] computes the
    width of a SCALE compact integer from the two low bits of its first
    byte; [blake2b] and [encodeAddress] return a placeholder that names
    their argument. *)
Definition sample_host : Host := {|
  ERROR_WRONG_RAW := lit "wrong raw data";
  blake2b := fun hex => Return (lit "blake2b:" ++ hex);
  compactFromU8a := fun u8a =>
    match u8a with
    | [] => Return 1%nat
    | b :: _ =>
        let flag := Z.land (Z_of_byte b) 3 in
        Return (if flag =? 0 then 1%nat
                else if flag =? 1 then 2%nat
                else if flag =? 2 then 4%nat
                else Z.to_nat (5 + Z.shiftr (Z_of_byte b) 2))
    end;
  encodeAddress := fun key prefix =>
    Return (lit "address:" ++ dec_of_Z prefix ++ lit ":" ++ hex_of_bytes key)
|}.

(** The public key and the genesis hash of the example above
    [constructDataFromBytes]. *)
Definition sample_publicKey : list byte :=
  hex_pairs
    (lit "f4cd755672a8f9542ca9da4fbf2182e79135d94304002e6a09ffc96fef6e6c4c").

Definition sample_genesis : list byte :=
  hex_pairs
    (lit "91b171bb158e2d3848fa23a9f1c25182fb8e20313b2c1eb49219da7a70ce90c3").

Definition sample_networks : NetworkMap :=
  [(lit "0x91b171bb158e2d3848fa23a9f1c25182fb8e20313b2c1eb49219da7a70ce90c3",
    {| prefix := 2 |})].

(** A single frame (count 1, index 0) with a Substrate payload. *)
Definition substrate_frame (scheme command : byte) (payload : list byte)
  : list byte :=
  [x00; x00; x01; x00; x00; x53; scheme; command]
  ++ sample_publicKey ++ payload ++ sample_genesis.

(** A message of 12 bytes whose last four bytes are 00 00 00 09. *)
Definition sample_message : list byte :=
  [x54; x48; x49; x53; x20; x49; x53; x21; x00; x00; x00; x09].

(** A single frame with an Ethereum payload: action 0x00, the 22 bytes
    01 .. 16 for the address field, then the data de ad be ef. *)
Definition ethereum_frame : list byte :=
  [x00; x00; x01; x00; x00; x45; x00]
  ++ [x01; x02; x03; x04; x05; x06; x07; x08; x09; x0a; x0b;
      x0c; x0d; x0e; x0f; x10; x11; x12; x13; x14; x15; x16]
  ++ [xde; xad; xbe; xef].

(** A host whose address encoding always throws. *)
Definition failing_host : Host := {|
  ERROR_WRONG_RAW := lit "wrong raw data";
  blake2b := fun hex => Return (lit "blake2b:" ++ hex);
  compactFromU8a := fun _ => Return 1%nat;
  encodeAddress := fun _ _ => Throw NotAnError
|}.

(* ================================================================= *)
(** * Properties *)

(** ** Strings *)

Lemma str_eqb_eq (s t : str) : str_eqb s t = true <-> s = t.
Proof.
  revert t; induction s as [|a s IH]; intros [|b t]; simpl;
    try (split; [discriminate | discriminate]); try tauto.
  rewrite andb_true_iff, Ascii.eqb_eq, IH.
  split; [intros [-> ->]; reflexivity | intros E; inversion E; auto].
Qed.

Lemma str_eqb_refl (s : str) : str_eqb s s = true.
Proof. apply str_eqb_eq; reflexivity. Qed.

Lemma str_eqb_neq (s t : str) : s <> t -> str_eqb s t = false.
Proof.
  intros N; destruct (str_eqb s t) eqn:E; [|reflexivity].
  apply str_eqb_eq in E; contradiction.
Qed.

Lemma len_app (s t : str) : len (s ++ t) = len s + len t.
Proof. unfold len; rewrite length_app; lia. Qed.

Lemma len_nonneg (s : str) : 0 <= len s.
Proof. unfold len; lia. Qed.

Lemma firstn_ge {A} (n : nat) (l : list A) :
  (length l <= n)%nat -> firstn n l = l.
Proof. intros; apply firstn_all2; assumption. Qed.

Lemma substr_nonneg (s : str) (start n : Z) :
  0 <= start -> 0 <= n ->
  substr s start (Some n) = firstn (Z.to_nat n) (skipn (Z.to_nat start) s).
Proof.
  intros Hs Hn; unfold substr, len.
  destruct (start <? 0) eqn:E; [apply Z.ltb_lt in E; lia|].
  destruct (Z.le_gt_cases start (Z.of_nat (length s))) as [L|G].
  - rewrite (Z.min_l start) by lia. rewrite Z.max_l by lia.
    destruct (Z.le_gt_cases n (Z.of_nat (length s) - start)) as [L2|G2].
    + rewrite Z.min_l by lia; reflexivity.
    + rewrite Z.min_r by lia.
      rewrite !firstn_ge; [reflexivity | |]; rewrite length_skipn; lia.
  - rewrite (Z.min_r start) by lia.
    rewrite (skipn_all2 s (n := Z.to_nat start)) by lia.
    rewrite skipn_all2 by lia. rewrite !firstn_nil; reflexivity.
Qed.

Lemma substr_from (s : str) (start : Z) :
  0 <= start -> substr s start None = skipn (Z.to_nat start) s.
Proof.
  intros Hs; unfold substr, len.
  destruct (start <? 0) eqn:E; [apply Z.ltb_lt in E; lia|].
  destruct (Z.le_gt_cases start (Z.of_nat (length s))) as [L|G].
  - rewrite Z.min_l by lia. apply firstn_ge. rewrite length_skipn; lia.
  - rewrite Z.min_r by lia.
    rewrite (skipn_all2 s (n := Z.to_nat start)) by lia.
    rewrite skipn_all2 by lia. apply firstn_nil.
Qed.

Lemma substr_last (s : str) (start : Z) :
  start < 0 ->
  substr s start None = skipn (length s - Z.to_nat (- start)) s.
Proof.
  intros Hk; unfold substr, len.
  destruct (start <? 0) eqn:E; [|apply Z.ltb_ge in E; lia].
  replace (Z.to_nat (Z.max (Z.of_nat (length s) + start) 0))
    with (length s - Z.to_nat (- start))%nat by lia.
  apply firstn_ge. rewrite length_skipn; lia.
Qed.

Lemma substr_no_length (s : str) (start n : Z) :
  n <= 0 -> substr s start (Some n) = [].
Proof.
  intros Hn; unfold substr.
  rewrite (Z.max_r n 0) by lia.
  match goal with
  | |- firstn (Z.to_nat (Z.min 0 ?x)) _ = _ =>
      replace (Z.to_nat (Z.min 0 x)) with 0%nat by lia
  end.
  reflexivity.
Qed.

Lemma slice_from (s : str) (start : Z) :
  0 <= start -> slice s start None = skipn (Z.to_nat start) s.
Proof.
  intros Hs; unfold slice, len.
  destruct (start <? 0) eqn:E; [apply Z.ltb_lt in E; lia|].
  destruct (Z.le_gt_cases start (Z.of_nat (length s))) as [L|G].
  - rewrite Z.min_l by lia. apply firstn_ge. rewrite length_skipn; lia.
  - rewrite Z.min_r by lia.
    rewrite (skipn_all2 s (n := Z.to_nat start)) by lia.
    rewrite skipn_all2 by lia. apply firstn_nil.
Qed.

Lemma slice_drop_last (s : str) (e : Z) :
  e < 0 -> slice s 0 (Some e) = firstn (length s - Z.to_nat (- e)) s.
Proof.
  intros Hk; unfold slice, len.
  destruct (e <? 0) eqn:E; [|apply Z.ltb_ge in E; lia].
  change (0 <? 0) with false; cbv iota.
  rewrite (Z.min_l 0) by lia. simpl skipn.
  f_equal; lia.
Qed.

(** The pieces of a concatenation, by their lengths. *)
Lemma skipn_app_exact {A} (a b : list A) (n : nat) :
  length a = n -> skipn n (a ++ b) = b.
Proof.
  intros <-. rewrite skipn_app, skipn_all, Nat.sub_diag. reflexivity.
Qed.

Lemma firstn_app_exact {A} (a b : list A) (n : nat) :
  length a = n -> firstn n (a ++ b) = a.
Proof.
  intros <-. rewrite firstn_app, firstn_all, Nat.sub_diag.
  simpl. apply app_nil_r.
Qed.

Lemma substr_middle (a b c : str) (start n : Z) :
  len a = start -> len b = n -> substr (a ++ b ++ c) start (Some n) = b.
Proof.
  unfold len; intros Ha Hb.
  rewrite substr_nonneg by lia.
  rewrite skipn_app_exact by lia. apply firstn_app_exact; lia.
Qed.

Lemma substr_suffix (a b : str) (start : Z) :
  len b = - start -> start < 0 -> substr (a ++ b) start None = b.
Proof.
  unfold len; intros Hb Hk. rewrite substr_last by lia.
  apply skipn_app_exact. rewrite length_app; lia.
Qed.

(** The last characters of a string that ends with [c]. *)
Lemma substr_last_snoc (s : str) (c : ascii) (start : Z) :
  start < -1 ->
  substr (s ++ [c]) start None = substr s (start + 1) None ++ [c].
Proof.
  intros Hk. rewrite !substr_last by lia.
  rewrite length_app; simpl length.
  rewrite skipn_app.
  replace (length s + 1 - Z.to_nat (- start))%nat
    with (length s - Z.to_nat (- (start + 1)))%nat by lia.
  replace (length s - Z.to_nat (- (start + 1)) - length s)%nat
    with 0%nat by lia.
  reflexivity.
Qed.

Lemma not_ends_with (s t : str) (c d : ascii) (start : Z) :
  start < -1 -> c <> d -> substr (s ++ [c]) start None <> t ++ [d].
Proof.
  intros Hk N E. rewrite substr_last_snoc in E by assumption.
  apply app_inj_tail in E. destruct E as [_ E]. contradiction.
Qed.

(** ** Bytes and hexadecimal digits *)

Lemma Z_of_byte_range (b : byte) : 0 <= Z_of_byte b < 256.
Proof.
  unfold Z_of_byte. pose proof (Byte.to_N_bounded b). lia.
Qed.

Lemma byte_of_Z_of_byte (b : byte) : byte_of_Z (Z_of_byte b) = b.
Proof. destruct b; reflexivity. Qed.

Lemma Z_of_byte_of_Z (z : Z) : 0 <= z < 256 -> Z_of_byte (byte_of_Z z) = z.
Proof.
  intros Hz. unfold byte_of_Z, Z_of_byte.
  rewrite Z.mod_small by assumption.
  destruct (Byte.of_N (Z.to_N z)) eqn:E.
  - apply Byte.to_of_N in E. lia.
  - apply Byte.of_N_None_iff in E. lia.
Qed.

(** Case analysis on a hexadecimal digit. *)
Lemma nibble_cases (P : Z -> Prop) :
  P 0 -> P 1 -> P 2 -> P 3 -> P 4 -> P 5 -> P 6 -> P 7 ->
  P 8 -> P 9 -> P 10 -> P 11 -> P 12 -> P 13 -> P 14 -> P 15 ->
  forall d, 0 <= d < 16 -> P d.
Proof.
  intros. assert (d = 0 \/ d = 1 \/ d = 2 \/ d = 3 \/ d = 4 \/ d = 5
                  \/ d = 6 \/ d = 7 \/ d = 8 \/ d = 9 \/ d = 10 \/ d = 11
                  \/ d = 12 \/ d = 13 \/ d = 14 \/ d = 15) as C by lia.
  repeat (destruct C as [-> | C]; [assumption|]). subst; assumption.
Qed.

Lemma hexchar_digit (d : Z) : 0 <= d < 16 -> digit_value (hexchar d) = Some d.
Proof. revert d; apply nibble_cases; reflexivity. Qed.

Lemma hexchar_plain (d : Z) :
  0 <= d < 16 ->
  isWhiteSpace (hexchar d) = false
  /\ Ascii.eqb (hexchar d) "-" = false /\ Ascii.eqb (hexchar d) "+" = false
  /\ Ascii.eqb (hexchar d) "x" = false /\ Ascii.eqb (hexchar d) "X" = false.
Proof. revert d; apply nibble_cases; repeat split; reflexivity. Qed.

Lemma hexchar_isHexDigit (d : Z) : 0 <= d < 16 -> isHexDigit (hexchar d) = true.
Proof.
  intros H. unfold isHexDigit. rewrite hexchar_digit by assumption.
  apply Z.ltb_lt; lia.
Qed.

Lemma nibbles (b : byte) :
  0 <= Z_of_byte b / 16 < 16 /\ 0 <= Z_of_byte b mod 16 < 16
  /\ Z_of_byte b = Z_of_byte b / 16 * 16 + Z_of_byte b mod 16.
Proof.
  pose proof (Z_of_byte_range b).
  pose proof (Z.div_mod (Z_of_byte b) 16).
  pose proof (Z.mod_pos_bound (Z_of_byte b) 16).
  assert (0 <= Z_of_byte b / 16) by (apply Z.div_pos; lia).
  assert (Z_of_byte b / 16 < 16) by (apply Z.div_lt_upper_bound; lia).
  lia.
Qed.

Lemma parse_digits_hexchar (d : Z) (t : str) (acc : option Z) :
  0 <= d < 16 ->
  parse_digits 16 (hexchar d :: t) acc
  = parse_digits 16 t (Some (match acc with None => d | Some a => a * 16 + d end)).
Proof.
  intros H. simpl. rewrite hexchar_digit by assumption.
  replace (d <? 16) with true by (symmetry; apply Z.ltb_lt; lia).
  reflexivity.
Qed.

(** On a string that starts with two hexadecimal digits, [parseInt]
    skips nothing and reads digits. *)
Lemma parseInt_hex_start (a b : Z) (t : str) :
  0 <= a < 16 -> 0 <= b < 16 ->
  parseInt (hexchar a :: hexchar b :: t) 16
  = parse_digits 16 (hexchar a :: hexchar b :: t) None.
Proof.
  intros Ha Hb.
  destruct (hexchar_plain a Ha) as (W & M & P & _).
  destruct (hexchar_plain b Hb) as (_ & _ & _ & X1 & X2).
  unfold parseInt. cbn [skip_white]. rewrite W, M, P.
  cbn [has_0x]. rewrite X1, X2.
  cbn -[parse_digits hexchar Ascii.eqb]. rewrite andb_false_r.
  destruct (parse_digits 16 _ None) as [z|]; [|reflexivity].
  cbn [option_map]. f_equal. destruct z; reflexivity.
Qed.

Lemma parseInt_hex_of_byte (b : byte) :
  parseInt (hex_of_byte b) 16 = Some (Z_of_byte b).
Proof.
  destruct (nibbles b) as (H & L & E). unfold hex_of_byte.
  rewrite parseInt_hex_start, !parse_digits_hexchar by assumption.
  simpl. f_equal. lia.
Qed.

Lemma parseInt_hex_of_2_bytes (hi lo : byte) :
  parseInt (hex_of_byte hi ++ hex_of_byte lo) 16 = Some (be16 hi lo).
Proof.
  destruct (nibbles hi) as (H1 & L1 & E1).
  destruct (nibbles lo) as (H2 & L2 & E2).
  unfold hex_of_byte. cbn [app].
  rewrite parseInt_hex_start, !parse_digits_hexchar by assumption.
  simpl. f_equal. unfold be16. lia.
Qed.

Lemma toUint8_hex_of_byte (b : byte) :
  toUint8 (parseInt (hex_of_byte b) 16) = b.
Proof. rewrite parseInt_hex_of_byte. apply byte_of_Z_of_byte. Qed.

Lemma hex_of_byte_inj (a b : byte) : hex_of_byte a = hex_of_byte b -> a = b.
Proof.
  intros E. rewrite <- (toUint8_hex_of_byte a), E. apply toUint8_hex_of_byte.
Qed.

Lemma length_hex_of_bytes (l : list byte) :
  length (hex_of_bytes l) = (2 * length l)%nat.
Proof. induction l; simpl; lia. Qed.

Lemma len_hex_of_bytes (l : list byte) :
  len (hex_of_bytes l) = 2 * Z.of_nat (length l).
Proof. unfold len. rewrite length_hex_of_bytes. lia. Qed.

Lemma hex_of_bytes_app (l m : list byte) :
  hex_of_bytes (l ++ m) = hex_of_bytes l ++ hex_of_bytes m.
Proof. apply flat_map_app. Qed.

Lemma hex_of_bytes_cons (b : byte) (l : list byte) :
  hex_of_bytes (b :: l) = hex_of_byte b ++ hex_of_bytes l.
Proof. reflexivity. Qed.

Lemma hex_of_bytes_digits (l : list byte) :
  forallb isHexDigit (hex_of_bytes l) = true.
Proof.
  induction l as [|b l IH]; [reflexivity|].
  destruct (nibbles b) as (H & L & _). simpl.
  rewrite !hexchar_isHexDigit by assumption. exact IH.
Qed.

Lemma hex_pairs_hex_of_bytes (l : list byte) :
  hex_pairs (hex_of_bytes l) = l.
Proof.
  induction l as [|b l IH]; [reflexivity|].
  change (hex_of_bytes (b :: l))
    with (hexchar (Z_of_byte b / 16) :: hexchar (Z_of_byte b mod 16)
          :: hex_of_bytes l).
  cbn [hex_pairs]. rewrite IH. f_equal. apply toUint8_hex_of_byte.
Qed.

(** The [i]-th pair of digits is the [i]-th byte. *)
Lemma substr_hex_of_bytes (l : list byte) (i : nat) :
  (i < length l)%nat ->
  substr (hex_of_bytes l) (Z.of_nat i * 2) (Some 2) = hex_of_byte (nth i l x00).
Proof.
  intros Hi. rewrite substr_nonneg by lia.
  replace (Z.to_nat (Z.of_nat i * 2)) with (2 * i)%nat by lia.
  revert i Hi; induction l as [|b l IH]; intros i Hi; [simpl in Hi; lia|].
  destruct i as [|i].
  - reflexivity.
  - replace (2 * S i)%nat with (S (S (2 * i))) by lia.
    simpl in Hi. cbn [nth]. rewrite <- IH by lia. reflexivity.
Qed.

Lemma map_nth_seq {A} (l : list A) (d : A) :
  map (fun i => nth i l d) (seq 0 (length l)) = l.
Proof.
  induction l as [|a l IH]; [reflexivity|].
  simpl. f_equal. rewrite <- seq_shift, map_map. exact IH.
Qed.

(** The loop of [rawDataToU8A] reads back the bytes it is given as
    pairs of digits. *)
Lemma fill_bytes_hex_of_bytes (l : list byte) :
  fill_bytes (hex_of_bytes l) (Z.of_nat (length l)) = Return (Some l).
Proof.
  unfold fill_bytes.
  destruct (Z.of_nat (length l) <? 0) eqn:E; [apply Z.ltb_lt in E; lia|].
  rewrite Nat2Z.id. do 2 f_equal.
  rewrite <- (map_nth_seq l x00) at 2.
  apply map_ext_in. intros i Hi. apply in_seq in Hi.
  rewrite substr_hex_of_bytes by lia. apply toUint8_hex_of_byte.
Qed.

(** The imported helpers on the strings the decoder gives them. *)
Lemma hexStripPrefix_u8aToHex (l : list byte) :
  hexStripPrefix (u8aToHex l true) = Return (hex_of_bytes l).
Proof.
  unfold hexStripPrefix, u8aToHex.
  destruct l as [|b l]; [reflexivity|].
  change (lit "0x" ++ hex_of_bytes (b :: l))
    with ("0"%char :: "x"%char :: hex_of_bytes (b :: l)).
  rewrite substr_from by lia. rewrite substr_nonneg by lia.
  change (Z.to_nat 2) with 2%nat. change (Z.to_nat 0) with 0%nat.
  cbn [skipn firstn].
  rewrite hex_of_bytes_digits. reflexivity.
Qed.

Lemma hexToU8a_hex (l : list byte) :
  hexToU8a (lit "0x" ++ hex_of_bytes l) = Return l.
Proof.
  unfold hexToU8a.
  change (lit "0x" ++ hex_of_bytes l)
    with ("0"%char :: "x"%char :: hex_of_bytes l).
  rewrite substr_from by lia. rewrite substr_nonneg by lia.
  change (Z.to_nat 2) with 2%nat. change (Z.to_nat 0) with 0%nat.
  cbn [skipn firstn length].
  rewrite hex_of_bytes_digits, hex_pairs_hex_of_bytes.
  rewrite length_hex_of_bytes.
  replace (Nat.even (S (S (2 * length l)))) with true; [reflexivity|].
  symmetry. cbn [Nat.even]. apply Nat.even_spec. exists (length l). lia.
Qed.

(** ** Stripping the filler and the frame of a scan *)

Lemma ec11_snoc (k : nat) :
  concat (repeat (lit "ec11") (S k)) = concat (repeat (lit "ec11") k) ++ lit "ec11".
Proof.
  induction k as [|k IH]; [reflexivity|].
  change (concat (repeat (lit "ec11") (S (S k))))
    with (lit "ec11" ++ concat (repeat (lit "ec11") (S k))).
  rewrite IH at 1. rewrite app_assoc. reflexivity.
Qed.

Lemma length_ec11 (k : nat) :
  length (concat (repeat (lit "ec11") k)) = (4 * k)%nat.
Proof.
  induction k as [|k IH]; [reflexivity|].
  cbn [repeat concat]. rewrite length_app, IH. simpl length. lia.
Qed.

(** The loop removes every [ec11] that follows the terminator, and
    stops there. *)
Lemma strip_ec11_filler (s : str) (k fuel : nat) :
  (k <= fuel)%nat ->
  strip_ec11 fuel ((s ++ lit "0") ++ concat (repeat (lit "ec11") k))
  = s ++ lit "0".
Proof.
  revert fuel; induction k as [|k IH]; intros fuel Hf.
  - cbn [repeat concat]. rewrite app_nil_r.
    destruct fuel as [|fuel]; [reflexivity|]. cbn [strip_ec11].
    rewrite str_eqb_neq; [reflexivity|].
    apply (not_ends_with s (lit "ec1") "0" "1"); [lia | discriminate].
  - destruct fuel as [|fuel]; [lia|].
    rewrite ec11_snoc, app_assoc. cbn [strip_ec11].
    rewrite substr_suffix by (reflexivity || lia).
    rewrite str_eqb_refl.
    rewrite substr_nonneg by (rewrite ?len_app; unfold len; simpl; lia).
    cbn [Z.to_nat skipn]. rewrite len_app.
    rewrite firstn_app_exact; [apply IH; lia|].
    unfold len. simpl (length (lit "ec11")). lia.
Qed.

(** The loop stops only when the string no longer ends with [ec11]:
    [length rawData] turns are enough. *)
Lemma strip_ec11_exit (fuel : nat) (rawData : str) :
  (length rawData <= fuel)%nat ->
  str_eqb (substr (strip_ec11 fuel rawData) (-4) None) (lit "ec11") = false.
Proof.
  revert rawData; induction fuel as [|fuel IH]; intros rawData Hl.
  - destruct rawData; [reflexivity | simpl in Hl; lia].
  - cbn [strip_ec11].
    destruct (str_eqb (substr rawData (-4) None) (lit "ec11")) eqn:E;
      [|exact E].
    apply IH. apply str_eqb_eq in E.
    assert (4 <= length rawData)%nat as H4.
    { apply (f_equal (@length ascii)) in E.
      rewrite substr_last, length_skipn in E by lia. simpl in E. lia. }
    rewrite substr_nonneg by (unfold len; lia).
    rewrite length_firstn. cbn [Z.to_nat skipn]. unfold len. lia.
Qed.

Lemma rawDataToU8A_strips (body : str) (repeats : nat) (cut : bool) :
  rawDataToU8A (lit "4" ++ body ++ lit "0" ++ filler repeats cut)
  = strip_length_prefix body.
Proof.
  set (core := (lit "4" ++ body) ++ lit "0").
  assert (lit "4" ++ body ++ lit "0" ++ filler repeats cut
          = (core ++ concat (repeat (lit "ec11") repeats))
            ++ (if cut then lit "ec" else [])) as ->.
  { unfold core, filler. rewrite <- !app_assoc. reflexivity. }
  set (padded := core ++ concat (repeat (lit "ec11") repeats)).
  unfold rawDataToU8A.
  destruct (padded ++ (if cut then lit "ec" else [])) eqn:Enil.
  { apply (f_equal (@length ascii)) in Enil.
    unfold padded, core in Enil. rewrite !length_app in Enil.
    simpl in Enil. lia. }
  rewrite <- Enil; clear Enil.
  (* the single [ec] *)
  assert ((if str_eqb (substr (padded ++ (if cut then lit "ec" else []))
                         (-2) None) (lit "ec")
           then substr (padded ++ (if cut then lit "ec" else [])) 0
                  (Some (len (padded ++ (if cut then lit "ec" else [])) - 2))
           else padded ++ (if cut then lit "ec" else [])) = padded) as ->.
  { destruct cut.
    - rewrite substr_suffix by (reflexivity || lia). rewrite str_eqb_refl.
      rewrite len_app.
      change (len (lit "ec")) with 2.
      rewrite substr_nonneg by (pose proof (len_nonneg padded); lia).
      cbn [Z.to_nat skipn]. apply firstn_app_exact. unfold len. lia.
    - rewrite app_nil_r. rewrite str_eqb_neq; [reflexivity|].
      unfold padded. destruct repeats as [|k].
      + cbn [repeat concat]. rewrite app_nil_r. unfold core.
        apply (not_ends_with (lit "4" ++ body) (lit "e") "0" "c");
          [lia | discriminate].
      + rewrite ec11_snoc, app_assoc.
        change (lit "ec11") with (lit "ec1" ++ ["1"%char]).
        rewrite app_assoc.
        apply (not_ends_with _ (lit "e") "1" "c"); [lia | discriminate]. }
  (* the loop *)
  assert (strip_ec11 (length padded) padded = core) as ->.
  { unfold padded, core. apply strip_ec11_filler.
    rewrite length_app, length_ec11. lia. }
  (* indicator and terminator *)
  assert (substr core 0 (Some 1) = lit "4") as ->.
  { rewrite substr_nonneg by lia. reflexivity. }
  assert (substr core (-1) None = lit "0") as ->.
  { unfold core. apply substr_suffix; [reflexivity | lia]. }
  cbn [lit list_ascii_of_string str_eqb Ascii.eqb Bool.eqb andb negb orb].
  assert (substr core 1 (Some (len core - 2)) = body) as ->.
  { unfold core. rewrite <- app_assoc. apply substr_middle; [reflexivity|].
    rewrite !len_app. change (len (lit "4")) with 1.
    change (len (lit "0")) with 1. lia. }
  reflexivity.
Qed.

(** ** Reading the length prefix *)

Lemma encodeNumber_16 (n : Z) :
  0 <= n <= 65535 ->
  encodeNumber n = [byte_of_Z (n / 256); byte_of_Z (n mod 256)].
Proof.
  intros Hn. unfold encodeNumber, toInt32.
  rewrite Z.mod_small by lia.
  replace (n + 2 ^ 31 - 2 ^ 31) with n by lia.
  rewrite Z.shiftr_div_pow2 by lia.
  change 255 with (Z.ones 8). rewrite Z.land_ones by lia.
  reflexivity.
Qed.

Lemma strip_length_prefix_one (b : list byte) :
  Z.of_nat (length b) <= 255 ->
  strip_length_prefix
    (hex_of_byte (byte_of_Z (Z.of_nat (length b))) ++ hex_of_bytes b)
  = Return (Some b).
Proof.
  intros Hn. set (nb := byte_of_Z (Z.of_nat (length b))).
  unfold strip_length_prefix; cbv zeta.
  assert (substr (hex_of_byte nb ++ hex_of_bytes b) 0 (Some 2)
          = hex_of_byte nb) as ->.
  { rewrite substr_nonneg by lia. apply firstn_app_exact. reflexivity. }
  rewrite parseInt_hex_of_byte. unfold nb.
  rewrite Z_of_byte_of_Z by lia. cbn [or_zero].
  rewrite len_app, len_hex_of_bytes. change (len (hex_of_byte _)) with 2.
  replace (Z.of_nat (length b) * 2 + 2 =? 2 + 2 * Z.of_nat (length b))
    with true by (symmetry; apply Z.eqb_eq; lia).
  rewrite substr_from by lia. rewrite skipn_app_exact by reflexivity.
  apply fill_bytes_hex_of_bytes.
Qed.

Lemma strip_length_prefix_two (b : list byte) :
  Z.of_nat (length b) <= 65535 ->
  strip_length_prefix
    (hex_of_bytes (encodeNumber (Z.of_nat (length b))) ++ hex_of_bytes b)
  = Return (Some b).
Proof.
  intros Hn. set (n := Z.of_nat (length b)) in *.
  assert (0 <= n) as Hn0 by (unfold n; lia).
  assert (0 <= n / 256 < 256) as Hhi
    by (split; [apply Z.div_pos; lia | apply Z.div_lt_upper_bound; lia]).
  pose proof (Z.mod_pos_bound n 256 ltac:(lia)) as Hlo.
  pose proof (Z.div_mod n 256 ltac:(lia)) as Hdm.
  rewrite encodeNumber_16 by lia.
  set (hi := byte_of_Z (n / 256)). set (lo := byte_of_Z (n mod 256)).
  change (hex_of_bytes [hi; lo]) with (hex_of_byte hi ++ hex_of_byte lo).
  unfold strip_length_prefix; cbv zeta.
  assert (substr ((hex_of_byte hi ++ hex_of_byte lo) ++ hex_of_bytes b) 0
            (Some 2) = hex_of_byte hi) as ->.
  { rewrite substr_nonneg by lia. rewrite <- app_assoc.
    apply firstn_app_exact. reflexivity. }
  assert (substr ((hex_of_byte hi ++ hex_of_byte lo) ++ hex_of_bytes b) 0
            (Some 4) = hex_of_byte hi ++ hex_of_byte lo) as ->.
  { rewrite substr_nonneg by lia. apply firstn_app_exact. reflexivity. }
  rewrite parseInt_hex_of_byte, parseInt_hex_of_2_bytes.
  unfold be16, hi, lo. rewrite !Z_of_byte_of_Z by assumption. cbn [or_zero].
  rewrite len_app, len_hex_of_bytes.
  change (len (hex_of_byte _ ++ hex_of_byte _)) with 4. fold n.
  replace (n / 256 * 2 + 2 =? 4 + 2 * n) with false
    by (symmetry; apply Z.eqb_neq; lia).
  replace ((256 * (n / 256) + n mod 256) * 2 + 4 =? 4 + 2 * n) with true
    by (symmetry; apply Z.eqb_eq; lia).
  rewrite substr_from by lia. rewrite skipn_app_exact by reflexivity.
  replace (256 * (n / 256) + n mod 256) with n by lia.
  apply fill_bytes_hex_of_bytes.
Qed.

(** C1.  Every frame that encodes the bytes [b] -- the indicator 4, the
    number of bytes of [b] on one byte or on two bytes big-endian, the
    bytes of [b] as pairs of digits, the terminator 0, then any number
    of [ec11] fillers and possibly a last [ec] -- is decoded by
    [rawDataToU8A] to exactly [b]. *)
Theorem rawDataToU8A_frame_encoding
  (w : PrefixWidth) (b : list byte) (repeats : nat) (cut : bool) :
  Z.of_nat (length b) <= max_count w ->
  rawDataToU8A (frame_encoding w b repeats cut) = Return (Some b).
Proof.
  intros Hfit. unfold frame_encoding.
  rewrite (app_assoc (length_prefix w _) (hex_of_bytes b)).
  rewrite rawDataToU8A_strips.
  destruct w; cbn [length_prefix max_count] in *.
  - change (hex_of_bytes [byte_of_Z (Z.of_nat (length b))])
      with (hex_of_byte (byte_of_Z (Z.of_nat (length b)))).
    apply strip_length_prefix_one; assumption.
  - apply strip_length_prefix_two; assumption.
Qed.

(** ** The frame header *)

Section FrameHeader.
Context `{Host}.
Variables (reserved c1 c2 i1 i2 : byte) (body : list byte).
Variable networks : NetworkMap.

Local Abbreviation bytes := (reserved :: c1 :: c2 :: i1 :: i2 :: body).

(** What [constructDataFromBytes] does with a payload that has its five
    bytes of header. *)
Lemma constructDataFromBytes_framed (multipartComplete : bool) :
  constructDataFromBytes bytes multipartComplete networks
  = if 50 <? be16 c1 c2 then Throw (Error MalformedFrame ERROR_WRONG_RAW)
    else if (1 <? be16 c1 c2) && negb multipartComplete
    then Return (MultiPart {| currentFrame := Some (be16 i1 i2);
                              frameCount := Some (be16 c1 c2);
                              isMultipart := 1 <? be16 c1 c2;
                              partData := hex_of_bytes body |})
    else decode_uos bytes (hex_of_bytes body) networks.
Proof.
  unfold constructDataFromBytes.
  rewrite !hexStripPrefix_u8aToHex. cbn [bind firstn skipn].
  set (info := hex_of_bytes [reserved; c1; c2; i1; i2]).
  assert (substr info 2 (Some 4) = hex_of_byte c1 ++ hex_of_byte c2) as ->
    by (rewrite substr_nonneg by lia; reflexivity).
  assert (substr info 6 (Some 4) = hex_of_byte i1 ++ hex_of_byte i2) as ->
    by (rewrite substr_nonneg by lia; reflexivity).
  rewrite !parseInt_hex_of_2_bytes. reflexivity.
Qed.

(** C4.  A frame count above 50 in the header makes
    [constructDataFromBytes] fail with the [MalformedFrame] error,
    whatever follows the header and whatever [multipartComplete] is. *)
Theorem frameCount_above_50_is_malformed (multipartComplete : bool) :
  50 < be16 c1 c2 ->
  constructDataFromBytes bytes multipartComplete networks
  = Throw (Error MalformedFrame ERROR_WRONG_RAW).
Proof.
  intros Hfc. rewrite constructDataFromBytes_framed.
  replace (50 <? be16 c1 c2) with true by (symmetry; apply Z.ltb_lt; lia).
  reflexivity.
Qed.

(** C10.  With a frame count from 2 to 50 and [multipartComplete] false
    the call returns the partial data, made of the header fields and of
    the bytes after the header as digits: nothing of the payload is
    decoded and no error arises, for every payload and every table of
    networks. *)
Theorem multipart_frame_is_not_decoded :
  1 < be16 c1 c2 <= 50 ->
  constructDataFromBytes bytes false networks
  = Return (MultiPart {| currentFrame := Some (be16 i1 i2);
                         frameCount := Some (be16 c1 c2);
                         isMultipart := true;
                         partData := hex_of_bytes body |}).
Proof.
  intros Hfc. rewrite constructDataFromBytes_framed. cbn [negb].
  replace (50 <? be16 c1 c2) with false by (symmetry; apply Z.ltb_ge; lia).
  replace (1 <? be16 c1 c2) with true by (symmetry; apply Z.ltb_lt; lia).
  reflexivity.
Qed.

Lemma constructDataFromBytes_complete (multipartComplete : bool) :
  complete c1 c2 multipartComplete ->
  constructDataFromBytes bytes multipartComplete networks
  = decode_uos bytes (hex_of_bytes body) networks.
Proof.
  intros [Hmax Hone]. rewrite constructDataFromBytes_framed.
  replace (50 <? be16 c1 c2) with false by (symmetry; apply Z.ltb_ge; lia).
  destruct Hone as [Hone | ->].
  - replace (1 <? be16 c1 c2) with false by (symmetry; apply Z.ltb_ge; lia).
    reflexivity.
  - rewrite andb_false_r. reflexivity.
Qed.

End FrameHeader.

(** ** What the payload decoder can return *)

Ltac step :=
  match goal with
  | H : Return _ = Return _ |- _ => inversion H; subst; clear H
  | H : Throw _ = Return _ |- _ => discriminate H
  | H : try_catch ?c _ = Return _ |- _ =>
      destruct c eqn:?; cbn [try_catch] in H
  | H : bind ?c _ = Return _ |- _ =>
      destruct c eqn:?; cbn [bind] in H
  | H : (if ?b then _ else _) = Return _ |- _ => destruct b eqn:?
  | H : match ?o with Some _ => _ | None => _ end = Return _ |- _ =>
      destruct o eqn:?
  end.

Section Decoded.
Context `{Host}.
Variables (bytes : list byte) (uosAfterFrames : str) (networks : NetworkMap).

Lemma ethereum_payload_returns (firstByte : str) (r : ParsedData) :
  ethereum_payload uosAfterFrames firstByte = Return r ->
  r = Ethereum {| eth_action := signData;
                  eth_account := substr uosAfterFrames 4 (Some 44);
                  eth_rlp := char_at uosAfterFrames 13;
                  eth_data := None |}.
Proof.
  unfold ethereum_payload. intros E.
  destruct (str_eqb firstByte (lit "00") || str_eqb firstByte (lit "01")) eqn:A.
  - inversion E. reflexivity.
  - apply orb_false_iff in A. destruct A as [_ A]. rewrite A in E.
    discriminate E.
Qed.

(** A result of the payload decoder was built by [case '45'] or by
    [case '53'], and is never partial data. *)
Lemma decode_uos_returns (r : ParsedData) :
  decode_uos bytes uosAfterFrames networks = Return r ->
  (exists d, r = Ethereum d
             /\ ethereum_payload uosAfterFrames
                  (substr uosAfterFrames 2 (Some 2)) = Return r)
  \/ (exists d, r = Substrate d
                /\ substrate_payload uosAfterFrames
                     (substr uosAfterFrames 2 (Some 2))
                     (substr uosAfterFrames 4 (Some 2)) networks = Return d).
Proof.
  unfold decode_uos. intros E. repeat step.
  - left.
    match goal with
    | P : ethereum_payload _ _ = Return _ |- _ =>
        eexists; split; [exact (ethereum_payload_returns _ _ P) | exact P]
    end.
  - right. eexists; split; reflexivity.
Qed.

(** Every result of [constructDataFromBytes] other than partial data
    comes from the payload decoder. *)
Lemma constructDataFromBytes_returns (multipartComplete : bool) (r : ParsedData) :
  constructDataFromBytes bytes multipartComplete networks = Return r ->
  (exists p, r = MultiPart p)
  \/ decode_uos bytes (hex_of_bytes (skipn 5 bytes)) networks = Return r.
Proof.
  unfold constructDataFromBytes. rewrite !hexStripPrefix_u8aToHex.
  cbn [bind]. intros E. repeat step.
  - left. eexists; reflexivity.
  - right. assumption.
Qed.

End Decoded.

(** ** Partial data *)

Section PartialData.
Context `{Host}.
Variables (reserved c1 c2 i1 i2 : byte) (body : list byte).
Variable networks : NetworkMap.

Local Abbreviation bytes := (reserved :: c1 :: c2 :: i1 :: i2 :: body).

(** Partial data for an input that has its five bytes of header. *)
Lemma partial_data_iff (multipartComplete : bool) :
  ((exists p, constructDataFromBytes bytes multipartComplete networks
              = Return (MultiPart p))
   <-> 1 < be16 c1 c2 <= 50 /\ multipartComplete = false)
  /\ (forall p, constructDataFromBytes bytes multipartComplete networks
                = Return (MultiPart p) ->
                currentFrame p = Some (be16 i1 i2)
                /\ frameCount p = Some (be16 c1 c2)).
Proof.
  rewrite constructDataFromBytes_framed.
  destruct (50 <? be16 c1 c2) eqn:Emax.
  { apply Z.ltb_lt in Emax. split.
    - split; [intros [p E]; discriminate E | lia].
    - intros p E; discriminate E. }
  apply Z.ltb_ge in Emax.
  destruct (1 <? be16 c1 c2) eqn:Eone; cbn [andb].
  - apply Z.ltb_lt in Eone. destruct multipartComplete; cbn [negb].
    + split.
      * split; [|intros [_ E]; discriminate E].
        intros [p E]. apply decode_uos_returns in E.
        destruct E as [(d & E & _) | (d & E & _)]; discriminate E.
      * intros p E. apply decode_uos_returns in E.
        destruct E as [(d & E & _) | (d & E & _)]; discriminate E.
    + split.
      * split; [intros _; split; [lia | reflexivity]|].
        intros _. eexists; reflexivity.
      * intros p E. inversion E. split; reflexivity.
  - apply Z.ltb_ge in Eone. split.
    + split; [|lia].
      intros [p E]. apply decode_uos_returns in E.
      destruct E as [(d & E & _) | (d & E & _)]; discriminate E.
    + intros p E. apply decode_uos_returns in E.
      destruct E as [(d & E & _) | (d & E & _)]; discriminate E.
Qed.

End PartialData.

(** What the code reads in a header, whatever the length of the input. *)
Lemma read_header (bytes : list byte) :
  parseInt (substr (hex_of_bytes (firstn 5 bytes)) 2 (Some 4)) 16
  = header_frameCount bytes
  /\ parseInt (substr (hex_of_bytes (firstn 5 bytes)) 6 (Some 4)) 16
     = header_currentFrame bytes.
Proof.
  destruct bytes as [|r [|c1 [|c2 [|i1 [|i2 rest]]]]];
    cbn [firstn header_frameCount header_currentFrame];
    rewrite !substr_nonneg by lia;
    change (Z.to_nat 2) with 2%nat; change (Z.to_nat 4) with 4%nat;
    change (Z.to_nat 6) with 6%nat.
  - split; reflexivity.
  - split; reflexivity.
  - split; [apply parseInt_hex_of_byte | reflexivity].
  - split; [apply parseInt_hex_of_2_bytes | reflexivity].
  - split; [apply parseInt_hex_of_2_bytes | apply parseInt_hex_of_byte].
  - split; apply parseInt_hex_of_2_bytes.
Qed.

Lemma constructDataFromBytes_header `{Host}
  (bytes : list byte) (multipartComplete : bool) (networks : NetworkMap) :
  constructDataFromBytes bytes multipartComplete networks
  = if num_gt (header_frameCount bytes) 50
    then Throw (Error MalformedFrame ERROR_WRONG_RAW)
    else if num_gt (header_frameCount bytes) 1 && negb multipartComplete
    then Return (MultiPart {| currentFrame := header_currentFrame bytes;
                              frameCount := header_frameCount bytes;
                              isMultipart := num_gt (header_frameCount bytes) 1;
                              partData := hex_of_bytes (skipn 5 bytes) |})
    else decode_uos bytes (hex_of_bytes (skipn 5 bytes)) networks.
Proof.
  unfold constructDataFromBytes. rewrite !hexStripPrefix_u8aToHex.
  cbn [bind]. destruct (read_header bytes) as [-> ->]. reflexivity.
Qed.

(** C5, as amended.  On every input, [constructDataFromBytes] returns
    partial data exactly when the frame count read in the header is
    above 1, within the ceiling of 50, and [multipartComplete] is false;
    the partial data carries the frame count and the frame index read
    in the header: bytes 1-2 and bytes 3-4 big-endian when the input has
    its five header bytes, and what [header_frameCount] and
    [header_currentFrame] say of a shorter input. *)
Theorem partial_data_iff_every_input `{Host}
  (bytes : list byte) (multipartComplete : bool) (networks : NetworkMap) :
  ((exists p, constructDataFromBytes bytes multipartComplete networks
              = Return (MultiPart p))
   <-> (exists count, header_frameCount bytes = Some count
                      /\ 1 < count <= 50)
       /\ multipartComplete = false)
  /\ (forall p, constructDataFromBytes bytes multipartComplete networks
                = Return (MultiPart p) ->
                frameCount p = header_frameCount bytes
                /\ currentFrame p = header_currentFrame bytes
                /\ partData p = hex_of_bytes (skipn 5 bytes)).
Proof.
  rewrite constructDataFromBytes_header.
  assert (forall p, decode_uos bytes (hex_of_bytes (skipn 5 bytes)) networks
                    <> Return (MultiPart p)) as Never.
  { intros p E. apply decode_uos_returns in E.
    destruct E as [(d & E & _) | (d & E & _)]; discriminate E. }
  destruct (header_frameCount bytes) as [count|]; cbn [num_gt].
  - destruct (50 <? count) eqn:Emax.
    { apply Z.ltb_lt in Emax. split.
      - split; [intros [p E]; discriminate E|].
        intros [(n & E & Hn) _]. injection E as <-. lia.
      - intros p E; discriminate E. }
    apply Z.ltb_ge in Emax.
    destruct (1 <? count) eqn:Eone; cbn [andb].
    + apply Z.ltb_lt in Eone. destruct multipartComplete; cbn [negb].
      * split.
        -- split; [intros [p E]; elim (Never p E)|].
           intros [_ E]; discriminate E.
        -- intros p E; elim (Never p E).
      * split.
        -- split; [|intros _; eexists; reflexivity].
           intros _. split; [|reflexivity]. exists count. split; [reflexivity | lia].
        -- intros p E. injection E as <-. repeat split.
    + apply Z.ltb_ge in Eone. split.
      * split; [intros [p E]; elim (Never p E)|].
        intros [(n & E & Hn) _]. injection E as <-. lia.
      * intros p E; elim (Never p E).
  - cbn [andb]. split.
    + split; [intros [p E]; elim (Never p E)|].
      intros [(n & E & _) _]. discriminate E.
    + intros p E; elim (Never p E).
Qed.

(** ** Ethereum payloads *)

Lemma str_eqb_hex_of_byte (a b : byte) :
  str_eqb (hex_of_byte a) (hex_of_byte b) = Byte.eqb a b.
Proof.
  destruct (Byte.eqb a b) eqn:E.
  - apply Byte.byte_dec_bl in E. subst. apply str_eqb_refl.
  - apply str_eqb_neq. intros E'. apply hex_of_byte_inj in E'.
    apply Byte.byte_dec_lb in E'. congruence.
Qed.

Section EthereumPayload.
Context `{Host}.
Variables (reserved c1 c2 i1 i2 : byte) (multipartComplete : bool).
Variable networks : NetworkMap.
Variables (selector : byte) (rest : list byte).
Hypothesis is_complete : complete c1 c2 multipartComplete.

Local Abbreviation bytes :=
  (reserved :: c1 :: c2 :: i1 :: i2 :: x45 :: selector :: rest).

Lemma decode_uos_ethereum :
  constructDataFromBytes bytes multipartComplete networks
  = try_catch
      (ethereum_payload (hex_of_bytes (x45 :: selector :: rest))
         (hex_of_byte selector))
      outer_catch.
Proof.
  rewrite constructDataFromBytes_complete by assumption.
  unfold decode_uos; cbv zeta.
  assert (substr (hex_of_bytes (x45 :: selector :: rest)) 0 (Some 2)
          = lit "45") as -> by (rewrite substr_nonneg by lia; reflexivity).
  assert (substr (hex_of_bytes (x45 :: selector :: rest)) 2 (Some 2)
          = hex_of_byte selector) as ->
    by (rewrite substr_nonneg by lia; reflexivity).
  reflexivity.
Qed.

(** C8.  In a complete Ethereum payload the action byte 0x00 or 0x01 is
    decoded with the action [signData]; with any other action byte the
    decoding fails with the [MalformedAction] error. *)
Theorem ethereum_action_byte :
  (selector = x00 \/ selector = x01 ->
   exists d, constructDataFromBytes bytes multipartComplete networks
             = Return (Ethereum d)
             /\ eth_action d = signData)
  /\ (selector <> x00 -> selector <> x01 ->
      constructDataFromBytes bytes multipartComplete networks
      = Throw (Error MalformedAction [])).
Proof.
  rewrite decode_uos_ethereum. unfold ethereum_payload.
  change (lit "00") with (hex_of_byte x00).
  change (lit "01") with (hex_of_byte x01).
  rewrite !str_eqb_hex_of_byte. split.
  - intros [-> | ->]; eexists; split; reflexivity.
  - intros N0 N1.
    destruct (Byte.eqb selector x00) eqn:E0;
      [apply Byte.byte_dec_bl in E0; contradiction|].
    destruct (Byte.eqb selector x01) eqn:E1;
      [apply Byte.byte_dec_bl in E1; contradiction|].
    reflexivity.
Qed.

End EthereumPayload.

(** C9 (what the code does).  Whatever an Ethereum payload holds after
    its address field, the decoded result has no [data] and its [rlp] is
    the single character at index 13 of the payload written in
    hexadecimal, a digit of the address field. *)
Theorem ethereum_data_is_one_digit `{Host}
  (bytes : list byte) (multipartComplete : bool) (networks : NetworkMap)
  (d : EthereumParsedData) :
  constructDataFromBytes bytes multipartComplete networks
  = Return (Ethereum d) ->
  eth_account d = substr (hex_of_bytes (skipn 5 bytes)) 4 (Some 44)
  /\ eth_rlp d = char_at (hex_of_bytes (skipn 5 bytes)) 13
  /\ eth_data d = None.
Proof.
  intros E. apply constructDataFromBytes_returns in E.
  destruct E as [[p E] | E]; [discriminate E|].
  apply decode_uos_returns in E.
  destruct E as [(d' & _ & E) | (d' & E & _)]; [|discriminate E].
  apply ethereum_payload_returns in E. inversion E. repeat split.
Qed.

(** ** Substrate payloads *)

(** C7 (what the code does).  The [specVersion] of every decoded
    Substrate payload is [NaN]: [substr(-70, -64)] asks for a negative
    number of characters and yields the empty string. *)
Theorem specVersion_is_NaN `{Host}
  (bytes : list byte) (multipartComplete : bool) (networks : NetworkMap)
  (d : SubstrateCompletedParsedData) :
  constructDataFromBytes bytes multipartComplete networks
  = Return (Substrate d) ->
  specVersion d = None.
Proof.
  intros E. apply constructDataFromBytes_returns in E.
  destruct E as [[p E] | E]; [discriminate E|].
  apply decode_uos_returns in E.
  destruct E as [(d' & E & _) | (d' & E' & E)]; [discriminate E|].
  inversion E'; subst d'; clear E'.
  unfold substrate_payload in E. cbv zeta in E.
  rewrite (substr_no_length _ (-70) (-64)) in E by lia.
  change (parseInt [] 10) with (@None Z) in E.
  unfold substrate_command in E.
  repeat step; reflexivity.
Qed.

Section SubstratePayload.
Context `{Host}.
Variables (reserved c1 c2 i1 i2 : byte) (multipartComplete : bool).
Variable networks : NetworkMap.
Variables (scheme command : byte) (publicKey payload genesis : list byte).
Hypothesis is_complete : complete c1 c2 multipartComplete.
Hypothesis publicKey_length : length publicKey = 32%nat.
Hypothesis genesis_length : length genesis = 32%nat.

Local Abbreviation body :=
  (x53 :: scheme :: command :: publicKey ++ payload ++ genesis).
Local Abbreviation bytes := (reserved :: c1 :: c2 :: i1 :: i2 :: body).
Local Abbreviation uos := (hex_of_bytes body).
Local Abbreviation genesisHash_ := (lit "0x" ++ hex_of_bytes genesis).

Lemma uos_layout :
  uos = hex_of_bytes [x53; scheme; command]
        ++ hex_of_bytes publicKey
        ++ hex_of_bytes payload ++ hex_of_bytes genesis.
Proof.
  change body with ([x53; scheme; command] ++ publicKey ++ payload ++ genesis).
  rewrite !hex_of_bytes_app. reflexivity.
Qed.

(** The values computed at lines 173-185 on a payload of this layout. *)
Lemma substrate_payload_layout (firstByte secondByte : str) :
  substrate_payload uos firstByte secondByte networks
  = match Map_get networks genesisHash_ with
    | None => Throw (Error UnknownNetwork [])
    | Some network =>
        substrate_command secondByte (crypto_of firstByte) publicKey
          (lit "0x" ++ hex_of_bytes payload) None genesisHash_ payload
          (256 <? Z.of_nat (length payload)) network
    end.
Proof.
  assert (substr uos 6 (Some 64) = hex_of_bytes publicKey) as E1.
  { rewrite uos_layout. apply substr_middle; [reflexivity|].
    rewrite len_hex_of_bytes. lia. }
  assert (slice uos 70 None = hex_of_bytes payload ++ hex_of_bytes genesis)
    as E2.
  { rewrite slice_from by lia. rewrite uos_layout, app_assoc.
    apply skipn_app_exact. rewrite length_app, !length_hex_of_bytes.
    simpl length. lia. }
  assert (slice (lit "0x" ++ hex_of_bytes payload ++ hex_of_bytes genesis) 0
            (Some (-64)) = lit "0x" ++ hex_of_bytes payload) as E3.
  { rewrite slice_drop_last by lia. rewrite app_assoc.
    apply firstn_app_exact. rewrite !length_app, !length_hex_of_bytes.
    simpl length. lia. }
  assert (substr (lit "0x" ++ hex_of_bytes payload ++ hex_of_bytes genesis)
            (-64) None = hex_of_bytes genesis) as E4.
  { rewrite app_assoc. apply substr_suffix; [|lia].
    rewrite len_hex_of_bytes. lia. }
  unfold substrate_payload; cbv zeta.
  rewrite E1, hexToU8a_hex. cbn [bind]. rewrite E2, E3, hexToU8a_hex.
  cbn [bind]. rewrite E4, (substr_no_length _ (-70) (-64)) by lia.
  reflexivity.
Qed.

Lemma decode_uos_substrate :
  constructDataFromBytes bytes multipartComplete networks
  = try_catch
      (d <- try_catch
              (substrate_payload uos (hex_of_byte scheme)
                 (hex_of_byte command) networks)
              (substrate_catch uos) ;;
       Return (Substrate d))
      outer_catch.
Proof.
  rewrite constructDataFromBytes_complete by assumption.
  unfold decode_uos; cbv zeta.
  assert (substr uos 0 (Some 2) = lit "53") as ->
    by (rewrite substr_nonneg by lia; reflexivity).
  assert (substr uos 2 (Some 2) = hex_of_byte scheme) as ->
    by (rewrite substr_nonneg by lia; reflexivity).
  assert (substr uos 4 (Some 2) = hex_of_byte command) as ->
    by (rewrite substr_nonneg by lia; reflexivity).
  reflexivity.
Qed.

(** C3, as amended.  A complete Substrate payload whose genesis hash is
    not a key of [networks] always fails, and always with the one error
    of the Substrate decoder, [MalformedSubstratePayload], whose message
    quotes the payload: the error thrown for the missing network is
    caught and replaced. *)
Theorem unknown_network_is_malformed_payload :
  Map_get networks genesisHash_ = None ->
  substrate_payload uos (hex_of_byte scheme) (hex_of_byte command) networks
  = Throw (Error UnknownNetwork [])
  /\ constructDataFromBytes bytes multipartComplete networks
     = Throw (Error MalformedSubstratePayload
                (lit "Something went wrong decoding the Substrate UOS payload: "
                 ++ uos)).
Proof.
  intros Hnet. rewrite decode_uos_substrate, substrate_payload_layout, Hnet.
  split; reflexivity.
Qed.

Lemma command_is (b : byte) (s : str) :
  s = hex_of_byte b -> str_eqb (hex_of_byte command) s = Byte.eqb command b.
Proof. intros ->. apply str_eqb_hex_of_byte. Qed.

(** The flags of a transaction in the terms of the code: [oversized]
    and [isHash] are true exactly when [rawPayload], every byte between
    the public key and the genesis hash, counts more than 256 bytes;
    and the payload is decoded whenever the imported functions
    return. *)
Lemma oversized_iff_more_than_256 (network : SubstrateNetworkParams) :
  command = x00 \/ command = x02 ->
  Map_get networks genesisHash_ = Some network ->
  (forall d, constructDataFromBytes bytes multipartComplete networks
             = Return (Substrate d) ->
             oversized d = Some (256 <? Z.of_nat (length payload))
             /\ isHash d = Some (256 <? Z.of_nat (length payload))
             /\ rawPayload d = Some payload)
  /\ (forall offset address,
        compactFromU8a payload = Return offset ->
        (256 < Z.of_nat (length payload) ->
         exists hash,
           blake2b (u8aToHex (skipn offset payload) false) = Return hash) ->
        encodeAddress publicKey (prefix network) = Return address ->
        exists d, constructDataFromBytes bytes multipartComplete networks
                  = Return (Substrate d)).
Proof.
  intros Hcmd Hnet.
  rewrite decode_uos_substrate, substrate_payload_layout, Hnet.
  unfold substrate_command.
  assert (str_eqb (hex_of_byte command) CMD_SIGN_MORTAL
          || str_eqb (hex_of_byte command) CMD_SIGN_IMMORTAL = true) as ->.
  { rewrite (command_is x00), (command_is x02) by reflexivity.
    destruct Hcmd as [-> | ->]; reflexivity. }
  split.
  - intros d E. repeat step; repeat split.
  - intros offset address -> Hh ->. cbn [bind].
    destruct (256 <? Z.of_nat (length payload)) eqn:Over.
    + apply Z.ltb_lt in Over. destruct (Hh Over) as [hash ->].
      eexists; reflexivity.
    + eexists; reflexivity.
Qed.

(** The result for [SIGN_HASH] and [SIGN_MSG] in the terms of the code:
    the action [signData], never oversized, [isHash] true exactly for
    [SIGN_HASH], and for data every byte between the public key and the
    genesis hash, written in hexadecimal; and the payload is decoded
    whenever the address encoding returns. *)
Lemma sign_hash_and_sign_msg (network : SubstrateNetworkParams) :
  command = x01 \/ command = x03 ->
  Map_get networks genesisHash_ = Some network ->
  (forall d, constructDataFromBytes bytes multipartComplete networks
             = Return (Substrate d) ->
             action d = Some signData
             /\ oversized d = Some false
             /\ isHash d = Some (Byte.eqb command x01)
             /\ data d = Some (HexString (u8aToHex payload true)))
  /\ (forall address,
        encodeAddress publicKey (prefix network) = Return address ->
        exists d, constructDataFromBytes bytes multipartComplete networks
                  = Return (Substrate d)).
Proof.
  intros Hcmd Hnet.
  rewrite decode_uos_substrate, substrate_payload_layout, Hnet.
  unfold substrate_command.
  assert (str_eqb (hex_of_byte command) CMD_SIGN_MORTAL
          || str_eqb (hex_of_byte command) CMD_SIGN_IMMORTAL = false) as ->.
  { rewrite (command_is x00), (command_is x02) by reflexivity.
    destruct Hcmd as [-> | ->]; reflexivity. }
  assert (str_eqb (hex_of_byte command) CMD_SIGN_HASH
          || str_eqb (hex_of_byte command) CMD_SIGN_MSG = true) as ->.
  { rewrite (command_is x01), (command_is x03) by reflexivity.
    destruct Hcmd as [-> | ->]; reflexivity. }
  rewrite (command_is x01) by reflexivity.
  split.
  - intros d E. repeat step; repeat split.
  - intros address ->. eexists; reflexivity.
Qed.

End SubstratePayload.

(** ** The properties on sample inputs *)

Lemma rawDataToU8A_frame_encoding_witness :
  rawDataToU8A (lit "403aabbcc0ec11ec11ec") = Return (Some [xaa; xbb; xcc])
  /\ rawDataToU8A (lit "40003aabbcc0") = Return (Some [xaa; xbb; xcc]).
Proof.
  split.
  - apply (rawDataToU8A_frame_encoding OneByte [xaa; xbb; xcc] 2 true).
    vm_compute. discriminate.
  - apply (rawDataToU8A_frame_encoding TwoBytes [xaa; xbb; xcc] 0 false).
    vm_compute. discriminate.
Defined.

Lemma frameCount_above_50_is_malformed_witness :
  constructDataFromBytes (H := sample_host)
    [x00; x00; x33; x00; x00; x53] true sample_networks
  = Throw (Error MalformedFrame (lit "wrong raw data")).
Proof.
  apply (frameCount_above_50_is_malformed (H := sample_host)).
  vm_compute. reflexivity.
Defined.

Lemma multipart_frame_is_not_decoded_witness :
  constructDataFromBytes (H := sample_host)
    [x00; x00; x03; x00; x02; x99] false []
  = Return (MultiPart {| currentFrame := Some 2; frameCount := Some 3;
                         isMultipart := true; partData := lit "99" |}).
Proof.
  apply (multipart_frame_is_not_decoded (H := sample_host)
           x00 x00 x03 x00 x02 [x99] []).
  vm_compute. split; [reflexivity | discriminate].
Defined.

(** C5 as stated fails: a frame count of 51 is above 1 and
    [multipartComplete] is false, yet the call throws and returns no
    partial data. *)
Lemma partial_data_counterexample :
  (1 < be16 x00 x33 /\ false = false)
  /\ constructDataFromBytes (H := sample_host)
       [x00; x00; x33; x00; x00] false []
     = Throw (Error MalformedFrame (lit "wrong raw data"))
  /\ ~ (exists p, constructDataFromBytes (H := sample_host)
                    [x00; x00; x33; x00; x00] false []
                  = Return (MultiPart p)).
Proof.
  split; [split; reflexivity|]. split; [reflexivity|].
  intros [p E]. vm_compute in E. discriminate E.
Qed.

Lemma partial_data_iff_witness :
  (exists p, constructDataFromBytes (H := sample_host)
               [x00; x00; x03; x00; x02; x99] false []
             = Return (MultiPart p))
  /\ ~ (exists p, constructDataFromBytes (H := sample_host)
                    [x00; x00; x33; x00; x00] false []
                  = Return (MultiPart p)).
Proof.
  split.
  - apply (partial_data_iff (H := sample_host)
             x00 x00 x03 x00 x02 [x99] [] false).
    vm_compute. split; [split; [reflexivity | discriminate] | reflexivity].
  - intros E.
    apply (partial_data_iff (H := sample_host)
             x00 x00 x33 x00 x00 [] [] false) in E.
    vm_compute in E. destruct E as [[_ E] _]. apply E. reflexivity.
Defined.

Lemma sample_complete : complete x00 x01 true.
Proof. vm_compute. split; [discriminate | left; discriminate]. Defined.

Lemma ethereum_action_byte_witness :
  exists d, constructDataFromBytes (H := sample_host) ethereum_frame true []
            = Return (Ethereum d)
            /\ eth_action d = signData.
Proof.
  apply (ethereum_action_byte (H := sample_host)
           x00 x00 x01 x00 x00 true [] x00 _ sample_complete).
  left; reflexivity.
Defined.

(** C9 at a sample frame: the data after the address field is
    de ad be ef, the decoded result holds the digit 5 of the address
    field and no [data]. *)
Lemma ethereum_data_is_one_digit_witness :
  constructDataFromBytes (H := sample_host) ethereum_frame true []
  = Return (Ethereum
      {| eth_action := signData;
         eth_account := lit "0102030405060708090a0b0c0d0e0f10111213141516";
         eth_rlp := Some (lit "5");
         eth_data := None |})
  /\ eth_rlp
       {| eth_action := signData;
          eth_account := lit "0102030405060708090a0b0c0d0e0f10111213141516";
          eth_rlp := Some (lit "5");
          eth_data := None |}
     = char_at (hex_of_bytes (skipn 5 ethereum_frame)) 13.
Proof.
  split; [vm_compute; reflexivity|].
  apply (ethereum_data_is_one_digit (H := sample_host) ethereum_frame true []).
  vm_compute. reflexivity.
Defined.

Lemma sample_publicKey_length : length sample_publicKey = 32%nat.
Proof. reflexivity. Defined.

Lemma sample_genesis_length : length sample_genesis = 32%nat.
Proof. reflexivity. Defined.

Lemma sample_network_known :
  Map_get sample_networks (lit "0x" ++ hex_of_bytes sample_genesis)
  = Some {| prefix := 2 |}.
Proof. vm_compute. reflexivity. Defined.

(** The boundary in the terms of the code: 256 bytes between the public
    key and the genesis hash are not oversized, 257 bytes are. *)
Lemma oversized_iff_more_than_256_witness :
  (exists d, constructDataFromBytes (H := sample_host)
               (substrate_frame x01 x00 (repeat x04 256)) true sample_networks
             = Return (Substrate d)
             /\ oversized d = Some false /\ isHash d = Some false)
  /\ (exists d, constructDataFromBytes (H := sample_host)
                  (substrate_frame x01 x02 (repeat x04 257)) true sample_networks
                = Return (Substrate d)
                /\ oversized d = Some true /\ isHash d = Some true).
Proof.
  split.
  - destruct (oversized_iff_more_than_256 (H := sample_host)
                x00 x00 x01 x00 x00 true sample_networks x01 x00
                sample_publicKey (repeat x04 256) sample_genesis
                sample_complete sample_publicKey_length sample_genesis_length
                {| prefix := 2 |} (or_introl eq_refl) sample_network_known)
      as [Flags Decoded].
    assert (256 < Z.of_nat (length (repeat x04 256)) ->
            exists hash,
              blake2b (Host := sample_host)
                (u8aToHex (skipn 1 (repeat x04 256)) false)
              = Return hash) as Hash
      by (intros Over; vm_compute in Over; discriminate Over).
    destruct (Decoded _ _ eq_refl Hash eq_refl) as [d E].
    exists d. split; [exact E|].
    destruct (Flags d E) as (O & I & _). split; [exact O | exact I].
  - destruct (oversized_iff_more_than_256 (H := sample_host)
                x00 x00 x01 x00 x00 true sample_networks x01 x02
                sample_publicKey (repeat x04 257) sample_genesis
                sample_complete sample_publicKey_length sample_genesis_length
                {| prefix := 2 |} (or_intror eq_refl) sample_network_known)
      as [Flags Decoded].
    assert (256 < Z.of_nat (length (repeat x04 257)) ->
            exists hash,
              blake2b (Host := sample_host)
                (u8aToHex (skipn 1 (repeat x04 257)) false)
              = Return hash) as Hash
      by (intros _; eexists; reflexivity).
    destruct (Decoded _ _ eq_refl Hash eq_refl) as [d E].
    exists d. split; [exact E|].
    destruct (Flags d E) as (O & I & _). split; [exact O | exact I].
Defined.

(** C3 as stated fails: with a genesis hash that is in no table the
    call fails with the error of kind [MalformedSubstratePayload], not
    with one of kind [UnknownNetwork]. *)
Lemma unknown_network_counterexample :
  Map_get [] (lit "0x" ++ hex_of_bytes sample_genesis) = None
  /\ error_kind (constructDataFromBytes (H := sample_host)
                   (substrate_frame x01 x00 sample_message) true [])
     = Some MalformedSubstratePayload
  /\ error_kind (constructDataFromBytes (H := sample_host)
                   (substrate_frame x01 x00 sample_message) true [])
     <> Some UnknownNetwork.
Proof.
  split; [reflexivity|]. split; [vm_compute; reflexivity|].
  vm_compute. discriminate.
Qed.

Lemma unknown_network_is_malformed_payload_witness :
  constructDataFromBytes (H := sample_host)
    (substrate_frame x01 x00 sample_message) true []
  = Throw (Error MalformedSubstratePayload
             (lit "Something went wrong decoding the Substrate UOS payload: "
              ++ hex_of_bytes (skipn 5 (substrate_frame x01 x00 sample_message)))).
Proof.
  apply (unknown_network_is_malformed_payload (H := sample_host)
           x00 x00 x01 x00 x00 true [] x01 x00
           sample_publicKey sample_message sample_genesis
           sample_complete sample_publicKey_length sample_genesis_length).
  reflexivity.
Defined.

Lemma sign_hash_and_sign_msg_witness :
  exists d, constructDataFromBytes (H := sample_host)
              (substrate_frame x01 x03 sample_message) true sample_networks
            = Return (Substrate d)
            /\ action d = Some signData
            /\ oversized d = Some false
            /\ isHash d = Some false
            /\ data d = Some (HexString (lit "0x544849532049532100000009")).
Proof.
  destruct (sign_hash_and_sign_msg (H := sample_host)
              x00 x00 x01 x00 x00 true sample_networks x01 x03
              sample_publicKey sample_message sample_genesis
              sample_complete sample_publicKey_length sample_genesis_length
              {| prefix := 2 |} (or_intror eq_refl) sample_network_known)
    as [Fields Decoded].
  destruct (Decoded _ eq_refl) as [d E].
  exists d. split; [exact E|]. exact (Fields d E).
Defined.

(** C7 at a sample frame: the four bytes before the genesis hash are
    00 00 00 09, the decoded [specVersion] is [NaN]. *)
Lemma specVersion_is_NaN_witness :
  exists d, constructDataFromBytes (H := sample_host)
              (substrate_frame x01 x03 sample_message) true sample_networks
            = Return (Substrate d)
            /\ specVersion d = None
            /\ specVersion d <> Some 9.
Proof.
  eexists. split; [vm_compute; reflexivity|].
  assert (forall v : option Z, v = None -> v = None /\ v <> Some 9) as W
    by (intros v ->; split; [reflexivity | discriminate]).
  apply W.
  apply (specVersion_is_NaN (H := sample_host)
           (substrate_frame x01 x03 sample_message) true sample_networks).
  vm_compute. reflexivity.
Defined.

(** ** Further examples *)

(** The signing payload is every byte between the public key and the
    genesis hash: 253 bytes followed by 00 00 00 09 count as 257. *)
Example oversized_counts_the_last_four_bytes :
  exists d, constructDataFromBytes (H := sample_host)
              (substrate_frame x01 x00 (repeat x04 253 ++ [x00; x00; x00; x09]))
              true sample_networks
            = Return (Substrate d)
            /\ oversized d = Some true
            /\ rawPayload d = Some (repeat x04 253 ++ [x00; x00; x00; x09]).
Proof. eexists. split; [vm_compute; reflexivity|]. split; reflexivity. Qed.

(** The frame of the comment above [constructDataFromBytes], with the
    length byte that its data has (0x57), decodes to a transaction
    signed with sr25519. *)
Example documented_frame :
  exists bytes d,
    rawDataToU8A
      (lit "4" ++ lit "57" ++ lit "0000010000" ++ lit "530100"
       ++ lit "f4cd755672a8f9542ca9da4fbf2182e79135d94304002e6a09ffc96fef6e6c4c"
       ++ lit "544849532049532053504152544121"
       ++ lit "91b171bb158e2d3848fa23a9f1c25182fb8e20313b2c1eb49219da7a70ce90c3"
       ++ lit "0" ++ lit "ec11ec11ec11ec")
    = Return (Some bytes)
    /\ constructDataFromBytes (H := sample_host) bytes false sample_networks
       = Return (Substrate d)
    /\ action d = Some signTransaction
    /\ crypto d = Some sr25519
    /\ oversized d = Some false.
Proof.
  eexists. eexists. split; [vm_compute; reflexivity|].
  split; [vm_compute; reflexivity|]. repeat split.
Qed.

(** A payload whose first byte is neither 0x45 nor 0x53. *)
Example unrecognized_payload :
  constructDataFromBytes (H := sample_host)
    [x00; x00; x01; x00; x00; x99; xff] false sample_networks
  = Throw (Error UnrecognizedPayloadType
             (lit "Payload is not formated correctly: 0,0,1,0,0,153,255")).
Proof. vm_compute. reflexivity. Qed.

(** A scan that passes the checks of [rawDataToU8A] with a negative
    length makes the typed-array constructor throw. *)
Example negative_length : rawDataToU8A (lit "4-10") = Throw (RangeError (-1)).
Proof. vm_compute. reflexivity. Qed.

Example encodeNumber_256 : encodeNumber 256 = [x01; x00].
Proof. reflexivity. Qed.

(* ================================================================= *)
(** * Further properties of the decoders *)

(** ** Scans that [rawDataToU8A] rejects *)

Lemma in_all_ascii (c : ascii) : In c all_ascii.
Proof.
  unfold all_ascii. rewrite <- (ascii_nat_embedding c).
  apply in_map, in_seq. pose proof (nat_ascii_bounded c). lia.
Qed.

Lemma ascii_cases (P : ascii -> bool) :
  forallb P all_ascii = true -> forall c, P c = true.
Proof.
  intros F c. rewrite forallb_forall in F. apply F, in_all_ascii.
Qed.

(** What the filler stripping leaves is a prefix of the scan. *)
Lemma substr_0_prefix (s : str) (n : Z) :
  exists k, substr s 0 (Some n) = firstn k s.
Proof.
  destruct (Z.le_gt_cases 0 n).
  - rewrite substr_nonneg by lia. eexists; reflexivity.
  - rewrite substr_no_length by lia. exists 0%nat. reflexivity.
Qed.

Lemma strip_ec11_prefix (fuel : nat) (s : str) :
  exists k, strip_ec11 fuel s = firstn k s.
Proof.
  revert s; induction fuel as [|fuel IH]; intros s.
  - exists (length s). symmetry. apply firstn_all.
  - cbn [strip_ec11]. destruct (str_eqb _ _).
    + destruct (substr_0_prefix s (len s - 4)) as [k ->].
      destruct (IH (firstn k s)) as [j ->].
      rewrite firstn_firstn. eexists; reflexivity.
    + exists (length s). symmetry. apply firstn_all.
Qed.

(** X1.  A scan that does not start with the indicator 4 gives [null],
    whatever follows. *)
Theorem rawDataToU8A_without_indicator (c : ascii) (rest : str) :
  c <> "4"%char -> rawDataToU8A (c :: rest) = Return None.
Proof.
  intros Hc. unfold rawDataToU8A.
  set (s1 := if str_eqb (substr (c :: rest) (-2) None) (lit "ec")
             then substr (c :: rest) 0 (Some (len (c :: rest) - 2))
             else c :: rest).
  assert (exists k, s1 = firstn k (c :: rest)) as [k ->].
  { unfold s1. destruct (str_eqb _ _).
    - apply substr_0_prefix.
    - exists (length (c :: rest)). symmetry. apply firstn_all. }
  destruct (strip_ec11_prefix (length (firstn k (c :: rest)))
              (firstn k (c :: rest))) as [j ->].
  rewrite firstn_firstn.
  assert (str_eqb (substr (firstn (Nat.min j k) (c :: rest)) 0 (Some 1))
            (lit "4") = false) as ->; [|reflexivity].
  rewrite substr_nonneg by lia. cbn [Z.to_nat skipn].
  rewrite firstn_firstn.
  destruct (Nat.min (Pos.to_nat 1) (Nat.min j k)) as [|m]; [reflexivity|].
  cbn [firstn]. destruct m; cbn [firstn lit list_ascii_of_string str_eqb].
  - destruct (Ascii.eqb c "4") eqn:E; [apply Ascii.eqb_eq in E; contradiction|].
    reflexivity.
  - destruct (Ascii.eqb c "4") eqn:E; [apply Ascii.eqb_eq in E; contradiction|].
    reflexivity.
Qed.

Lemma rawDataToU8A_without_indicator_witness :
  rawDataToU8A (lit "503aabbcc0ec11") = Return None.
Proof.
  apply (rawDataToU8A_without_indicator "5" (lit "03aabbcc0ec11")).
  discriminate.
Defined.

(** X2.  Filler bytes never change the result: a scan with its fillers
    decodes as the same scan without them, for every content between
    the indicator and the terminator. *)
Theorem rawDataToU8A_ignores_filler (body : str) (repeats : nat) (cut : bool) :
  rawDataToU8A (lit "4" ++ body ++ lit "0" ++ filler repeats cut)
  = rawDataToU8A (lit "4" ++ body ++ lit "0").
Proof.
  rewrite rawDataToU8A_strips.
  rewrite <- (rawDataToU8A_strips body 0 false).
  unfold filler. cbn [repeat concat app]. reflexivity.
Qed.



(** ** The only exception of [rawDataToU8A] *)

Lemma minus_one_is_written_so :
  forallb (fun a => forallb (fun b =>
    if or_zero (parseInt [a; b] 16) =? -1
    then Ascii.eqb a "-" && Ascii.eqb b "1" else true) all_ascii) all_ascii
  = true.
Proof. vm_compute. reflexivity. Qed.

Lemma parseInt_minus_one (a b : ascii) :
  or_zero (parseInt [a; b] 16) = -1 -> a = "-"%char /\ b = "1"%char.
Proof.
  intros E.
  pose proof (ascii_cases _ (ascii_cases _ minus_one_is_written_so a) b) as C.
  cbv beta in C. rewrite E in C. cbn [Z.eqb Pos.eqb] in C.
  apply andb_true_iff in C. destruct C as [A B].
  apply Ascii.eqb_eq in A, B. split; assumption.
Qed.

(** Reading the length prefix throws exactly on the characters [-1]:
    the two-byte reading then gives the length -1. *)
Lemma strip_length_prefix_throws (body : str) (e : Exception) :
  strip_length_prefix body = Throw e
  <-> body = lit "-1" /\ e = RangeError (-1).
Proof.
  split; [|intros [-> ->]; reflexivity].
  unfold strip_length_prefix, fill_bytes. cbv zeta. intros E.
  match type of E with
  | (if ?c then _ else _) = _ => destruct c eqn:E8
  end.
  - exfalso. apply Z.eqb_eq in E8.
    match type of E with
    | (if ?c then _ else _) = _ => destruct c eqn:N; [|discriminate E]
    end.
    apply Z.ltb_lt in N.
    destruct body as [|a body]; [vm_compute in N; discriminate N|].
    unfold len in E8. cbn [length] in E8. lia.
  - match type of E with
    | (if ?c then _ else _) = _ => destruct c eqn:E16; [|discriminate E]
    end.
    apply Z.eqb_eq in E16.
    match type of E with
    | (if ?c then _ else _) = _ => destruct c eqn:N; [|discriminate E]
    end.
    apply Z.ltb_lt in N.
    destruct body as [|a [|b [|c body]]].
    + vm_compute in N. discriminate N.
    + unfold len in E16. cbn [length] in E16. lia.
    + assert (substr [a; b] 0 (Some 4) = [a; b]) as S4
        by (rewrite substr_nonneg by lia; reflexivity).
      rewrite S4 in *.
      assert (or_zero (parseInt [a; b] 16) = -1) as M
        by (unfold len in E16; cbn [length] in E16; lia).
      destruct (parseInt_minus_one a b M) as [-> ->].
      split; [reflexivity|]. injection E as <-. reflexivity.
    + unfold len in E16. cbn [length] in E16. lia.
Qed.

(** X4.  A framed scan makes [rawDataToU8A] throw exactly when the
    characters between indicator and terminator are [-1]: the two-byte
    reading gives the length -1 and the typed-array constructor raises
    its [RangeError]. *)
Theorem rawDataToU8A_throws_iff
  (body : str) (repeats : nat) (cut : bool) (e : Exception) :
  rawDataToU8A (lit "4" ++ body ++ lit "0" ++ filler repeats cut) = Throw e
  <-> body = lit "-1" /\ e = RangeError (-1).
Proof. rewrite rawDataToU8A_strips. apply strip_length_prefix_throws. Qed.

(** X5.  [rawDataToU8A] throws nothing but the [RangeError] of the
    length -1; every other scan gives bytes or [null]. *)
Theorem rawDataToU8A_throws_only_RangeError (rawData : str) (e : Exception) :
  rawDataToU8A rawData = Throw e -> e = RangeError (-1).
Proof.
  unfold rawDataToU8A. intros E.
  destruct rawData as [|c rest]; [discriminate E|].
  match type of E with
  | (if ?c then _ else _) = _ => destruct c; [discriminate E|]
  end.
  apply strip_length_prefix_throws in E. apply E.
Qed.

Lemma rawDataToU8A_throws_only_RangeError_witness :
  exists e, rawDataToU8A (lit "4-10ec11ec") = Throw e /\ e = RangeError (-1).
Proof.
  eexists. split; [vm_compute; reflexivity|].
  apply (rawDataToU8A_throws_only_RangeError (lit "4-10ec11ec")).
  vm_compute. reflexivity.
Defined.

(** ** What [constructDataFromBytes] throws *)

Section Thrown.
Context `{Host}.
Variables (bytes : list byte) (networks : NetworkMap).

Lemma decode_uos_throws (uosAfterFrames : str) (e : Exception) :
  decode_uos bytes uosAfterFrames networks = Throw e ->
  e = Error MalformedAction []
  \/ e = Error MalformedSubstratePayload (substrate_message uosAfterFrames)
  \/ e = Error UnrecognizedPayloadType (unrecognized_message bytes).
Proof.
  unfold decode_uos; cbv zeta. intros E.
  destruct (str_eqb (substr uosAfterFrames 0 (Some 2)) (lit "45")).
  - left. unfold ethereum_payload in E.
    destruct (str_eqb _ (lit "00") || str_eqb _ (lit "01"));
      [discriminate E|].
    destruct (str_eqb _ (lit "01")); [discriminate E|].
    cbn [try_catch outer_catch] in E. injection E as <-. reflexivity.
  - destruct (str_eqb (substr uosAfterFrames 0 (Some 2)) (lit "53")).
    + right; left.
      destruct (substrate_payload uosAfterFrames _ _ networks);
        cbn [try_catch bind outer_catch substrate_catch] in E;
        [discriminate E | injection E as <-; reflexivity].
    + right; right. cbn [try_catch outer_catch] in E.
      injection E as <-. reflexivity.
Qed.

(** X6.  Whatever the input, the table and the imported functions,
    [constructDataFromBytes] throws one of four errors only: the
    malformed-frame error, the empty error of the Ethereum action, the
    Substrate error quoting the payload, or the unrecognized-payload
    error listing the bytes.  No error of an imported function and no
    error for a missing network ever reaches the caller. *)
Theorem constructDataFromBytes_throws
  (multipartComplete : bool) (e : Exception) :
  constructDataFromBytes bytes multipartComplete networks = Throw e ->
  e = Error MalformedFrame ERROR_WRONG_RAW
  \/ e = Error MalformedAction []
  \/ e = Error MalformedSubstratePayload
           (substrate_message (hex_of_bytes (skipn 5 bytes)))
  \/ e = Error UnrecognizedPayloadType (unrecognized_message bytes).
Proof.
  unfold constructDataFromBytes. rewrite !hexStripPrefix_u8aToHex.
  cbn [bind]. intros E.
  match type of E with
  | (if ?c then _ else _) = _ => destruct c
  end.
  - left. injection E as <-. reflexivity.
  - right.
    match type of E with
    | (if ?c then _ else _) = _ => destruct c; [discriminate E|]
    end.
    apply decode_uos_throws in E. exact E.
Qed.

End Thrown.

Lemma constructDataFromBytes_throws_witness :
  exists e,
    constructDataFromBytes (H := failing_host)
      (substrate_frame x01 x03 sample_message) true sample_networks
    = Throw e
    /\ (e = Error MalformedFrame (lit "wrong raw data")
        \/ e = Error MalformedAction []
        \/ e = Error MalformedSubstratePayload
                 (substrate_message
                    (hex_of_bytes
                       (skipn 5 (substrate_frame x01 x03 sample_message))))
        \/ e = Error UnrecognizedPayloadType
                 (unrecognized_message
                    (substrate_frame x01 x03 sample_message))).
Proof.
  eexists. split; [vm_compute; reflexivity|].
  apply (constructDataFromBytes_throws (H := failing_host)
           (substrate_frame x01 x03 sample_message) sample_networks true).
  vm_compute. reflexivity.
Defined.

(** ** Payloads of no known type, and inputs without a header *)

Section Unrecognized.
Context `{Host}.
Variables (reserved c1 c2 i1 i2 : byte) (multipartComplete : bool).
Variable networks : NetworkMap.
Hypothesis is_complete : complete c1 c2 multipartComplete.

(** X7.  A complete payload that is empty after its header, or whose
    first byte is neither 0x45 nor 0x53, fails with the
    unrecognized-payload error, whose message lists every byte of the
    input in decimal. *)
Theorem unrecognized_payload_type (body : list byte) :
  match body with
  | [] => True
  | discriminator :: _ => discriminator <> x45 /\ discriminator <> x53
  end ->
  constructDataFromBytes (reserved :: c1 :: c2 :: i1 :: i2 :: body)
    multipartComplete networks
  = Throw (Error UnrecognizedPayloadType
             (unrecognized_message
                (reserved :: c1 :: c2 :: i1 :: i2 :: body))).
Proof.
  intros Hd. rewrite constructDataFromBytes_complete by assumption.
  unfold decode_uos; cbv zeta.
  destruct body as [|d rest]; [reflexivity|].
  destruct Hd as [N45 N53].
  assert (substr (hex_of_bytes (d :: rest)) 0 (Some 2) = hex_of_byte d) as ->
    by (rewrite substr_nonneg by lia; reflexivity).
  change (lit "45") with (hex_of_byte x45).
  change (lit "53") with (hex_of_byte x53).
  rewrite !str_eqb_hex_of_byte.
  destruct (Byte.eqb d x45) eqn:E45;
    [apply Byte.byte_dec_bl in E45; contradiction|].
  destruct (Byte.eqb d x53) eqn:E53;
    [apply Byte.byte_dec_bl in E53; contradiction|].
  reflexivity.
Qed.

(** X8.  A complete payload that starts with 0x53 either is decoded to
    a Substrate result or fails with the Substrate error quoting the
    payload, however short or ill-formed the payload is and whatever
    the imported functions do. *)
Theorem substrate_payload_outcome (rest : list byte) :
  (exists d, constructDataFromBytes
               (reserved :: c1 :: c2 :: i1 :: i2 :: x53 :: rest)
               multipartComplete networks
             = Return (Substrate d))
  \/ constructDataFromBytes
       (reserved :: c1 :: c2 :: i1 :: i2 :: x53 :: rest)
       multipartComplete networks
     = Throw (Error MalformedSubstratePayload
                (substrate_message (hex_of_bytes (x53 :: rest)))).
Proof.
  rewrite constructDataFromBytes_complete by assumption.
  unfold decode_uos; cbv zeta.
  assert (substr (hex_of_bytes (x53 :: rest)) 0 (Some 2) = lit "53") as ->
    by (rewrite substr_nonneg by lia; reflexivity).
  cbn [lit list_ascii_of_string str_eqb Ascii.eqb Bool.eqb andb].
  destruct (substrate_payload _ _ _ networks) as [d|e].
  - left. exists d. reflexivity.
  - right. reflexivity.
Qed.

End Unrecognized.

Lemma unrecognized_payload_type_witness :
  constructDataFromBytes (H := sample_host)
    [x00; x00; x01; x00; x00; x99; xff] true sample_networks
  = Throw (Error UnrecognizedPayloadType
             (lit "Payload is not formated correctly: 0,0,1,0,0,153,255")).
Proof.
  apply (unrecognized_payload_type (H := sample_host)
           x00 x00 x01 x00 x00 true sample_networks sample_complete
           [x99; xff]).
  cbn. split; discriminate.
Defined.

Lemma substrate_payload_outcome_witness :
  (exists d, constructDataFromBytes (H := sample_host)
               [x00; x00; x01; x00; x00; x53; x01] true sample_networks
             = Return (Substrate d))
  \/ constructDataFromBytes (H := sample_host)
       [x00; x00; x01; x00; x00; x53; x01] true sample_networks
     = Throw (Error MalformedSubstratePayload
                (substrate_message (lit "5301"))).
Proof.
  apply (substrate_payload_outcome (H := sample_host)
           x00 x00 x01 x00 x00 true sample_networks sample_complete [x01]).
Defined.

(** X9.  An input of at most one byte has no frame count to read: it is
    never partial data nor a malformed frame, and fails with the
    unrecognized-payload error whatever [multipartComplete] is. *)
Theorem input_without_header `{Host}
  (bytes : list byte) (multipartComplete : bool) (networks : NetworkMap) :
  (length bytes <= 1)%nat ->
  constructDataFromBytes bytes multipartComplete networks
  = Throw (Error UnrecognizedPayloadType (unrecognized_message bytes)).
Proof.
  intros Hl. destruct bytes as [|b [|b' bytes]];
    [| |cbn [length] in Hl; lia].
  - destruct multipartComplete; reflexivity.
  - unfold constructDataFromBytes. rewrite !hexStripPrefix_u8aToHex.
    cbn [bind firstn skipn].
    assert (substr (hex_of_bytes [b]) 2 (Some 4) = []) as ->
      by (rewrite substr_nonneg by lia; reflexivity).
    destruct multipartComplete; reflexivity.
Qed.

Lemma input_without_header_witness :
  constructDataFromBytes (H := sample_host) [] false sample_networks
  = Throw (Error UnrecognizedPayloadType
             (lit "Payload is not formated correctly: ")).
Proof.
  apply (input_without_header (H := sample_host) [] false sample_networks).
  simpl. lia.
Defined.

(** X10.  For a lone frame (frame count 0 or 1) the flag
    [multipartComplete] changes nothing. *)
Theorem lone_frame_ignores_flag `{Host}
  (reserved c1 c2 i1 i2 : byte) (body : list byte) (networks : NetworkMap) :
  be16 c1 c2 <= 1 ->
  constructDataFromBytes (reserved :: c1 :: c2 :: i1 :: i2 :: body)
    true networks
  = constructDataFromBytes (reserved :: c1 :: c2 :: i1 :: i2 :: body)
      false networks.
Proof.
  intros Hone. rewrite !constructDataFromBytes_framed.
  replace (1 <? be16 c1 c2) with false by (symmetry; apply Z.ltb_ge; lia).
  reflexivity.
Qed.

Lemma lone_frame_ignores_flag_witness :
  constructDataFromBytes (H := sample_host) ethereum_frame true []
  = constructDataFromBytes (H := sample_host) ethereum_frame false [].
Proof.
  apply (lone_frame_ignores_flag (H := sample_host) x00 x00 x01 x00 x00).
  vm_compute. discriminate.
Defined.

(** ** The fields of a decoded Substrate payload *)

Lemma crypto_of_hex_of_byte (scheme : byte) :
  crypto_of (hex_of_byte scheme)
  = if Byte.eqb scheme x00 then Some ed25519
    else if Byte.eqb scheme x01 then Some sr25519
    else None.
Proof.
  unfold crypto_of, CRYPTO_ED25519, CRYPTO_SR25519.
  change (lit "00") with (hex_of_byte x00).
  change (lit "01") with (hex_of_byte x01).
  rewrite !str_eqb_hex_of_byte. reflexivity.
Qed.

Section SubstrateFields.
Context `{Host}.
Variables (reserved c1 c2 i1 i2 : byte) (multipartComplete : bool).
Variable networks : NetworkMap.
Variables (scheme command : byte) (publicKey payload genesis : list byte).
Hypothesis is_complete : complete c1 c2 multipartComplete.
Hypothesis publicKey_length : length publicKey = 32%nat.
Hypothesis genesis_length : length genesis = 32%nat.

Local Abbreviation body :=
  (x53 :: scheme :: command :: publicKey ++ payload ++ genesis).
Local Abbreviation bytes := (reserved :: c1 :: c2 :: i1 :: i2 :: body).

(** The call on a payload of this layout, with the values of lines
    173-185 computed. *)
Lemma constructDataFromBytes_substrate :
  constructDataFromBytes bytes multipartComplete networks
  = try_catch
      (d <- try_catch
              match Map_get networks (u8aToHex genesis true) with
              | None => Throw (Error UnknownNetwork [])
              | Some network =>
                  substrate_command (hex_of_byte command)
                    (crypto_of (hex_of_byte scheme)) publicKey
                    (u8aToHex payload true) None (u8aToHex genesis true)
                    payload (256 <? Z.of_nat (length payload)) network
              end
              (substrate_catch (hex_of_bytes body)) ;;
       Return (Substrate d))
      outer_catch.
Proof.
  rewrite decode_uos_substrate by assumption.
  rewrite substrate_payload_layout by assumption. reflexivity.
Qed.

Lemma command_cases :
  str_eqb (hex_of_byte command) CMD_SIGN_MORTAL = Byte.eqb command x00
  /\ str_eqb (hex_of_byte command) CMD_SIGN_HASH = Byte.eqb command x01
  /\ str_eqb (hex_of_byte command) CMD_SIGN_IMMORTAL = Byte.eqb command x02
  /\ str_eqb (hex_of_byte command) CMD_SIGN_MSG = Byte.eqb command x03.
Proof.
  repeat split; apply command_is; reflexivity.
Qed.

(** X11.  A command byte other than 0x00 .. 0x03 is no error: with a
    known genesis hash the call returns a result that has the scheme,
    the genesis hash and a [NaN] specVersion but no action, no flags,
    no data and no account; the result is the same whatever
    [compactFromU8a], [blake2b] and [encodeAddress] would do. *)
Theorem unknown_command_is_silent (network : SubstrateNetworkParams) :
  command <> x00 -> command <> x01 -> command <> x02 -> command <> x03 ->
  Map_get networks (u8aToHex genesis true) = Some network ->
  constructDataFromBytes bytes multipartComplete networks
  = Return (Substrate
      {| action := None; oversized := None; isHash := None;
         crypto := crypto_of (hex_of_byte scheme);
         specVersion := None;
         genesisHash := u8aToHex genesis true;
         rawPayload := None; data := None; account := None |}).
Proof.
  intros N0 N1 N2 N3 Hnet.
  rewrite constructDataFromBytes_substrate, Hnet. unfold substrate_command.
  destruct command_cases as (-> & -> & -> & ->).
  destruct (Byte.eqb command x00) eqn:E0;
    [apply Byte.byte_dec_bl in E0; contradiction|].
  destruct (Byte.eqb command x01) eqn:E1;
    [apply Byte.byte_dec_bl in E1; contradiction|].
  destruct (Byte.eqb command x02) eqn:E2;
    [apply Byte.byte_dec_bl in E2; contradiction|].
  destruct (Byte.eqb command x03) eqn:E3;
    [apply Byte.byte_dec_bl in E3; contradiction|].
  reflexivity.
Qed.

(** X12.  For a complete Substrate payload that has its 32 bytes of
    public key and, after them, at least the 32 bytes of a genesis hash,
    every decoded result names the scheme of the scheme byte (0x00
    ed25519, 0x01 sr25519, anything else [null]) and the genesis hash of
    the payload's last 32 bytes, written [0x...], and that hash is a key
    of the table. *)
Theorem decoded_scheme_and_genesis (d : SubstrateCompletedParsedData) :
  constructDataFromBytes bytes multipartComplete networks
  = Return (Substrate d) ->
  crypto d = (if Byte.eqb scheme x00 then Some ed25519
              else if Byte.eqb scheme x01 then Some sr25519
              else None)
  /\ genesisHash d = u8aToHex genesis true
  /\ Map_get networks (genesisHash d) <> None.
Proof.
  rewrite constructDataFromBytes_substrate, <- crypto_of_hex_of_byte.
  intros E. destruct (Map_get networks (u8aToHex genesis true)) eqn:Hnet;
    [|discriminate E].
  unfold substrate_command in E.
  repeat step; cbn [crypto genesisHash]; rewrite Hnet;
    (split; [reflexivity | split; [reflexivity | discriminate]]).
Qed.

(** X13.  For the commands [SIGN_MORTAL] and [SIGN_IMMORTAL] a decoded
    result is a transaction whose account is what [encodeAddress] gives
    for the public key and the prefix of the network.  Its data is the
    whole signing payload, compact prefix included, when that has at
    most 256 bytes; otherwise it is the [blake2b] hash of the
    hexadecimal digits of the payload after its compact prefix. *)
Theorem sign_transaction_fields
  (network : SubstrateNetworkParams) (d : SubstrateCompletedParsedData) :
  command = x00 \/ command = x02 ->
  Map_get networks (u8aToHex genesis true) = Some network ->
  constructDataFromBytes bytes multipartComplete networks
  = Return (Substrate d) ->
  action d = Some signTransaction
  /\ (exists address,
        encodeAddress publicKey (prefix network) = Return address
        /\ account d = Some address)
  /\ (Z.of_nat (length payload) <= 256 -> data d = Some (RawBytes payload))
  /\ (256 < Z.of_nat (length payload) ->
      exists offset hash,
        compactFromU8a payload = Return offset
        /\ blake2b (u8aToHex (skipn offset payload) false) = Return hash
        /\ data d = Some (Hashed hash)).
Proof.
  intros Hcmd Hnet. rewrite constructDataFromBytes_substrate, Hnet.
  unfold substrate_command.
  destruct command_cases as (-> & _ & -> & _).
  assert (Byte.eqb command x00 || Byte.eqb command x02 = true) as ->
    by (destruct Hcmd as [-> | ->]; reflexivity).
  intros E.
  destruct (compactFromU8a payload) as [offset|] eqn:Hoff;
    cbn [bind try_catch] in E; [|discriminate E].
  destruct (256 <? Z.of_nat (length payload)) eqn:Over.
  - apply Z.ltb_lt in Over.
    destruct (blake2b (u8aToHex (skipn offset payload) false))
      as [hash|] eqn:Hhash; cbn [bind try_catch] in E; [|discriminate E].
    destruct (encodeAddress publicKey (prefix network))
      as [address|] eqn:Haddr; cbn [bind try_catch] in E; [|discriminate E].
    injection E as <-. cbn [action account data].
    split; [reflexivity|]. split; [eexists; split; reflexivity|].
    split; [lia|]. intros _. exists offset, hash. repeat split; assumption.
  - apply Z.ltb_ge in Over. cbn [bind try_catch] in E.
    destruct (encodeAddress publicKey (prefix network))
      as [address|] eqn:Haddr; cbn [bind try_catch] in E; [|discriminate E].
    injection E as <-. cbn [action account data].
    split; [reflexivity|]. split; [eexists; split; reflexivity|].
    split; [reflexivity | lia].
Qed.

(** X14.  When [encodeAddress] throws on the public key, a payload with
    one of the four commands is not decoded: whatever was thrown, the
    caller gets the Substrate error quoting the payload. *)
Theorem address_failure_is_substrate_error
  (network : SubstrateNetworkParams) (e : Exception) :
  command = x00 \/ command = x01 \/ command = x02 \/ command = x03 ->
  Map_get networks (u8aToHex genesis true) = Some network ->
  encodeAddress publicKey (prefix network) = Throw e ->
  constructDataFromBytes bytes multipartComplete networks
  = Throw (Error MalformedSubstratePayload
             (substrate_message (hex_of_bytes body))).
Proof.
  intros Hcmd Hnet Haddr. rewrite constructDataFromBytes_substrate, Hnet.
  unfold substrate_command. rewrite Haddr.
  destruct command_cases as (-> & -> & -> & ->).
  destruct Hcmd as [-> | [-> | [-> | ->]]]; cbn [Byte.eqb orb bind try_catch];
    try reflexivity.
  - destruct (compactFromU8a payload); cbn [bind try_catch];
      [|reflexivity].
    destruct (256 <? Z.of_nat (length payload)); cbn [bind try_catch];
      [|reflexivity].
    destruct (blake2b _); reflexivity.
  - destruct (compactFromU8a payload); cbn [bind try_catch];
      [|reflexivity].
    destruct (256 <? Z.of_nat (length payload)); cbn [bind try_catch];
      [|reflexivity].
    destruct (blake2b _); reflexivity.
Qed.

End SubstrateFields.

Lemma unknown_command_is_silent_witness :
  constructDataFromBytes (H := sample_host)
    (substrate_frame x01 x07 sample_message) true sample_networks
  = Return (Substrate
      {| action := None; oversized := None; isHash := None;
         crypto := Some sr25519;
         specVersion := None;
         genesisHash := u8aToHex sample_genesis true;
         rawPayload := None; data := None; account := None |}).
Proof.
  apply (unknown_command_is_silent (H := sample_host)
           x00 x00 x01 x00 x00 true sample_networks x01 x07
           sample_publicKey sample_message sample_genesis
           sample_complete sample_publicKey_length sample_genesis_length
           {| prefix := 2 |});
    try discriminate.
  exact sample_network_known.
Defined.

Lemma decoded_scheme_and_genesis_witness :
  exists d, constructDataFromBytes (H := sample_host)
              (substrate_frame x00 x03 sample_message) true sample_networks
            = Return (Substrate d)
            /\ crypto d = Some ed25519
            /\ genesisHash d = u8aToHex sample_genesis true
            /\ Map_get sample_networks (genesisHash d) <> None.
Proof.
  eexists. split; [vm_compute; reflexivity|].
  apply (decoded_scheme_and_genesis (H := sample_host)
           x00 x00 x01 x00 x00 true sample_networks x00 x03
           sample_publicKey sample_message sample_genesis
           sample_complete sample_publicKey_length sample_genesis_length).
  vm_compute. reflexivity.
Defined.

Lemma sign_transaction_fields_witness :
  exists d, constructDataFromBytes (H := sample_host)
              (substrate_frame x01 x00 sample_message) true sample_networks
            = Return (Substrate d)
            /\ action d = Some signTransaction
            /\ data d = Some (RawBytes sample_message).
Proof.
  eexists. split; [vm_compute; reflexivity|].
  destruct (sign_transaction_fields (H := sample_host)
              x00 x00 x01 x00 x00 true sample_networks x01 x00
              sample_publicKey sample_message sample_genesis
              sample_complete sample_publicKey_length sample_genesis_length
              {| prefix := 2 |} _ (or_introl eq_refl) sample_network_known
              eq_refl) as (A & _ & D & _).
  split; [exact A|]. apply D. vm_compute. discriminate.
Defined.

Lemma address_failure_is_substrate_error_witness :
  constructDataFromBytes (H := failing_host)
    (substrate_frame x01 x03 sample_message) true sample_networks
  = Throw (Error MalformedSubstratePayload
             (substrate_message
                (hex_of_bytes (skipn 5 (substrate_frame x01 x03 sample_message))))).
Proof.
  apply (address_failure_is_substrate_error (H := failing_host)
           x00 x00 x01 x00 x00 true sample_networks x01 x03
           sample_publicKey sample_message sample_genesis
           sample_complete sample_publicKey_length sample_genesis_length
           {| prefix := 2 |} NotAnError).
  - right; right; right; reflexivity.
  - exact sample_network_known.
  - reflexivity.
Defined.

(** ** The fields of a decoded Ethereum payload *)

(** X15.  No input is decoded to an Ethereum transaction: the action of
    every Ethereum result is [signData], the test for [signTransaction]
    being shadowed by the test before it. *)
Theorem ethereum_is_never_a_transaction `{Host}
  (bytes : list byte) (multipartComplete : bool) (networks : NetworkMap)
  (d : EthereumParsedData) :
  constructDataFromBytes bytes multipartComplete networks
  = Return (Ethereum d) ->
  eth_action d = signData.
Proof.
  intros E. apply constructDataFromBytes_returns in E.
  destruct E as [[p E] | E]; [discriminate E|].
  apply decode_uos_returns in E.
  destruct E as [(d' & _ & E) | (d' & E & _)]; [|discriminate E].
  apply ethereum_payload_returns in E. injection E as ->. reflexivity.
Qed.

Lemma ethereum_is_never_a_transaction_witness :
  exists d, constructDataFromBytes (H := sample_host)
              ([x00; x00; x01; x00; x00; x45; x01] ++ sample_publicKey) true []
            = Return (Ethereum d)
            /\ eth_action d = signData.
Proof.
  eexists. split; [vm_compute; reflexivity|].
  apply (ethereum_is_never_a_transaction (H := sample_host)
           ([x00; x00; x01; x00; x00; x45; x01] ++ sample_publicKey) true []).
  vm_compute. reflexivity.
Defined.

(** X16.  In a complete Ethereum payload with action byte 0x00 or 0x01
    and its 22 bytes of address, the account of the result is the
    address in lower-case hexadecimal, 44 digits without prefix, and
    [rlp] is one of them: the low digit of the fifth address byte. *)
Theorem ethereum_account_and_rlp `{Host}
  (reserved c1 c2 i1 i2 : byte) (multipartComplete : bool)
  (networks : NetworkMap) (selector : byte) (address rest : list byte) :
  complete c1 c2 multipartComplete ->
  selector = x00 \/ selector = x01 ->
  length address = 22%nat ->
  constructDataFromBytes
    (reserved :: c1 :: c2 :: i1 :: i2 :: x45 :: selector :: address ++ rest)
    multipartComplete networks
  = Return (Ethereum
      {| eth_action := signData;
         eth_account := hex_of_bytes address;
         eth_rlp := Some [hexchar (Z_of_byte (nth 4 address x00) mod 16)];
         eth_data := None |}).
Proof.
  intros Hc Hsel Hlen. rewrite decode_uos_ethereum by assumption.
  unfold ethereum_payload.
  change (lit "00") with (hex_of_byte x00).
  change (lit "01") with (hex_of_byte x01).
  rewrite !str_eqb_hex_of_byte.
  assert (Byte.eqb selector x00 || Byte.eqb selector x01 = true) as ->
    by (destruct Hsel as [-> | ->]; reflexivity).
  cbn [try_catch]. do 3 f_equal.
  - change (x45 :: selector :: address ++ rest)
      with ([x45; selector] ++ address ++ rest).
    rewrite !hex_of_bytes_app.
    apply substr_middle; [reflexivity|].
    rewrite len_hex_of_bytes, Hlen. reflexivity.
  - do 5 (destruct address as [|? address]; [discriminate Hlen|]).
    reflexivity.
Qed.

Lemma ethereum_account_and_rlp_witness :
  constructDataFromBytes (H := sample_host) ethereum_frame true []
  = Return (Ethereum
      {| eth_action := signData;
         eth_account := lit "0102030405060708090a0b0c0d0e0f10111213141516";
         eth_rlp := Some (lit "5");
         eth_data := None |}).
Proof.
  apply (ethereum_account_and_rlp (H := sample_host)
           x00 x00 x01 x00 x00 true [] x00
           [x01; x02; x03; x04; x05; x06; x07; x08; x09; x0a; x0b;
            x0c; x0d; x0e; x0f; x10; x11; x12; x13; x14; x15; x16]
           [xde; xad; xbe; xef] sample_complete (or_introl eq_refl) eq_refl).
Defined.

(** ** [encodeNumber] *)

Lemma byte_of_Z_mod (z : Z) : byte_of_Z (z mod 256) = byte_of_Z z.
Proof. unfold byte_of_Z. rewrite Z.mod_mod by lia. reflexivity. Qed.

Lemma toInt32_small (n : Z) : - 2 ^ 31 <= n < 2 ^ 31 -> toInt32 n = n.
Proof. intros Hn. unfold toInt32. rewrite Z.mod_small by lia. lia. Qed.

Lemma toInt32_mod_65536 (n : Z) : toInt32 n mod 65536 = n mod 65536.
Proof.
  unfold toInt32.
  pose proof (Z.div_mod (n + 2 ^ 31) (2 ^ 32) ltac:(lia)) as D.
  replace ((n + 2 ^ 31) mod 2 ^ 32 - 2 ^ 31)
    with (n + (- (65536 * ((n + 2 ^ 31) / 2 ^ 32))) * 65536) by lia.
  apply Z_mod_plus_full.
Qed.

Lemma low_bytes (x y : Z) :
  x mod 65536 = y mod 65536 ->
  (x / 256) mod 256 = (y / 256) mod 256 /\ x mod 256 = y mod 256.
Proof.
  intros E.
  pose proof (Z.rem_mul_r x 256 256 ltac:(lia) ltac:(lia)) as X.
  pose proof (Z.rem_mul_r y 256 256 ltac:(lia) ltac:(lia)) as Y.
  change (256 * 256) with 65536 in X, Y.
  pose proof (Z.mod_pos_bound x 256 ltac:(lia)).
  pose proof (Z.mod_pos_bound y 256 ltac:(lia)).
  pose proof (Z.mod_pos_bound (x / 256) 256 ltac:(lia)).
  pose proof (Z.mod_pos_bound (y / 256) 256 ltac:(lia)).
  lia.
Qed.

(** X17.  [encodeNumber] keeps the low 16 bits of its argument and
    nothing else: any integer gives the bytes of its remainder modulo
    65536 (so -1 gives ff ff and 65536 gives 00 00). *)
Theorem encodeNumber_low_16_bits (value : Z) :
  encodeNumber value = encodeNumber (value mod 65536).
Proof.
  pose proof (Z.mod_pos_bound value 65536 ltac:(lia)) as B.
  unfold encodeNumber.
  rewrite (toInt32_small (value mod 65536)) by lia.
  rewrite !Z.shiftr_div_pow2 by lia.
  change 255 with (Z.ones 8). rewrite !Z.land_ones by lia.
  change (2 ^ 8) with 256.
  destruct (low_bytes (toInt32 value) (value mod 65536)) as [Hi Lo].
  { rewrite toInt32_mod_65536. symmetry. apply Z.mod_mod. lia. }
  rewrite <- (byte_of_Z_mod (toInt32 value / 256)), Hi, byte_of_Z_mod.
  rewrite Lo. reflexivity.
Qed.

(** X18.  Written in hexadecimal and read back by [parseInt], as the
    frame count and the frame index of a header are, the two bytes of
    [encodeNumber] give the number again, up to 65535. *)
Theorem encodeNumber_read_back (value : Z) :
  0 <= value <= 65535 ->
  parseInt (u8aToHex (encodeNumber value) false) 16 = Some value.
Proof.
  intros Hv. rewrite encodeNumber_16 by assumption.
  change (u8aToHex [byte_of_Z (value / 256); byte_of_Z (value mod 256)] false)
    with (hex_of_byte (byte_of_Z (value / 256))
          ++ hex_of_byte (byte_of_Z (value mod 256))).
  rewrite parseInt_hex_of_2_bytes. unfold be16.
  pose proof (Z.mod_pos_bound value 256 ltac:(lia)).
  pose proof (Z.div_mod value 256 ltac:(lia)).
  assert (0 <= value / 256 < 256)
    by (split; [apply Z.div_pos; lia | apply Z.div_lt_upper_bound; lia]).
  rewrite !Z_of_byte_of_Z by lia. f_equal. lia.
Qed.

Lemma encodeNumber_read_back_witness :
  parseInt (lit "0100") 16 = Some 256.
Proof. apply (encodeNumber_read_back 256). lia. Defined.

(** X19.  A header written with [encodeNumber] is read as written: with
    a frame count from 2 to 50 and any index up to 65535 the call
    returns partial data with that count and that index. *)
Theorem header_of_encodeNumber `{Host}
  (reserved : byte) (count index : Z) (body : list byte)
  (networks : NetworkMap) :
  1 < count <= 50 -> 0 <= index <= 65535 ->
  constructDataFromBytes
    (reserved :: encodeNumber count ++ encodeNumber index ++ body)
    false networks
  = Return (MultiPart {| currentFrame := Some index;
                         frameCount := Some count;
                         isMultipart := true;
                         partData := hex_of_bytes body |}).
Proof.
  intros Hc Hi. rewrite !encodeNumber_16 by lia. cbn [app].
  rewrite constructDataFromBytes_framed. unfold be16.
  pose proof (Z.mod_pos_bound count 256 ltac:(lia)).
  pose proof (Z.div_mod count 256 ltac:(lia)).
  assert (0 <= count / 256 < 256)
    by (split; [apply Z.div_pos; lia | apply Z.div_lt_upper_bound; lia]).
  pose proof (Z.mod_pos_bound index 256 ltac:(lia)).
  pose proof (Z.div_mod index 256 ltac:(lia)).
  assert (0 <= index / 256 < 256)
    by (split; [apply Z.div_pos; lia | apply Z.div_lt_upper_bound; lia]).
  rewrite !Z_of_byte_of_Z by lia.
  replace (256 * (count / 256) + count mod 256) with count by lia.
  replace (256 * (index / 256) + index mod 256) with index by lia.
  replace (50 <? count) with false by (symmetry; apply Z.ltb_ge; lia).
  replace (1 <? count) with true by (symmetry; apply Z.ltb_lt; lia).
  reflexivity.
Qed.

Lemma header_of_encodeNumber_witness :
  constructDataFromBytes (H := sample_host)
    [x00; x00; x03; x01; x02; x99] false []
  = Return (MultiPart {| currentFrame := Some 258; frameCount := Some 3;
                         isMultipart := true; partData := lit "99" |}).
Proof.
  apply (header_of_encodeNumber (H := sample_host) x00 3 258 [x99] []); lia.
Defined.

(** ** [isAddressString] *)

Lemma starts_with (s p : str) :
  p <> [] ->
  str_eqb (substr s 0 (Some (len p))) p = true <-> exists rest, s = p ++ rest.
Proof.
  intros Hp. rewrite str_eqb_eq, substr_nonneg by (unfold len; lia).
  unfold len. rewrite Nat2Z.id. cbn [Z.to_nat skipn]. split.
  - intros E. exists (skipn (length p) s).
    rewrite <- E at 1. symmetry. apply firstn_skipn.
  - intros [rest ->]. apply firstn_app_exact. reflexivity.
Qed.

(** X20.  [isAddressString] is true exactly for the strings that start
    with [0x], with [ethereum:] or with [substrate:]; the empty string
    is not one. *)
Theorem isAddressString_iff (s : str) :
  isAddressString s = true
  <-> exists rest, s = lit "0x" ++ rest
                   \/ s = lit "ethereum:" ++ rest
                   \/ s = lit "substrate:" ++ rest.
Proof.
  unfold isAddressString. destruct s as [|c s].
  - split; [discriminate|].
    intros [rest [E | [E | E]]]; discriminate E.
  - rewrite !orb_true_iff.
    change 2 with (len (lit "0x")). change 9 with (len (lit "ethereum:")).
    change 10 with (len (lit "substrate:")).
    rewrite !starts_with by discriminate. split.
    + intros [[[r E] | [r E]] | [r E]]; exists r; tauto.
    + intros [r [E | [E | E]]]; [left; left | left; right | right];
        exists r; exact E.
Qed.

(** ** [asciiToHex] *)

Lemma toString16_cases :
  forallb (fun c =>
    if charCodeAt c <? 16
    then str_eqb (toString16 (charCodeAt c)) [hexchar (charCodeAt c)]
    else str_eqb (toString16 (charCodeAt c))
           (hex_of_byte (byte_of_Z (charCodeAt c)))) all_ascii
  = true.
Proof. vm_compute. reflexivity. Qed.

Lemma toString16_one_digit (c : ascii) :
  charCodeAt c < 16 -> toString16 (charCodeAt c) = [hexchar (charCodeAt c)].
Proof.
  intros Hc. pose proof (ascii_cases _ toString16_cases c) as C.
  cbv beta in C.
  replace (charCodeAt c <? 16) with true in C
    by (symmetry; apply Z.ltb_lt; assumption).
  apply str_eqb_eq in C. exact C.
Qed.

Lemma toString16_two_digits (c : ascii) :
  16 <= charCodeAt c ->
  toString16 (charCodeAt c) = hex_of_byte (byte_of_Z (charCodeAt c)).
Proof.
  intros Hc. pose proof (ascii_cases _ toString16_cases c) as C.
  cbv beta in C.
  replace (charCodeAt c <? 16) with false in C
    by (symmetry; apply Z.ltb_ge; assumption).
  apply str_eqb_eq in C. exact C.
Qed.

(** X21.  On a message whose character codes are all at least 16,
    [asciiToHex] writes two digits per character, the same digits as
    [u8aToHex] on the codes, and [hexToU8a] reads the codes back. *)
Theorem asciiToHex_read_back (message : str) :
  Forall (fun c => 16 <= charCodeAt c) message ->
  asciiToHex message
  = u8aToHex (map (fun c => byte_of_Z (charCodeAt c)) message) false
  /\ hexToU8a (lit "0x" ++ asciiToHex message)
     = Return (map (fun c => byte_of_Z (charCodeAt c)) message).
Proof.
  intros Hm.
  assert (asciiToHex message
          = hex_of_bytes (map (fun c => byte_of_Z (charCodeAt c)) message))
    as E.
  { induction Hm as [|c m Hc _ IH]; [reflexivity|].
    unfold asciiToHex in *. cbn [map concat].
    rewrite IH, toString16_two_digits by assumption. reflexivity. }
  split; [exact E|]. rewrite E. apply hexToU8a_hex.
Qed.

Lemma asciiToHex_read_back_witness :
  asciiToHex (lit "THIS!") = lit "5448495321"
  /\ hexToU8a (lit "0x" ++ asciiToHex (lit "THIS!"))
     = Return [x54; x48; x49; x53; x21].
Proof.
  apply (asciiToHex_read_back (lit "THIS!")).
  repeat constructor; vm_compute; discriminate.
Defined.

(** X22.  A character code below 16 is written with one digit only, so
    the output does not tell where characters end: two characters below
    16, the first not 0, give the digits of a single character. *)
Theorem asciiToHex_is_ambiguous (a b : ascii) :
  1 <= charCodeAt a < 16 -> charCodeAt b < 16 ->
  asciiToHex [a; b]
  = asciiToHex [ascii_of_nat (Z.to_nat (16 * charCodeAt a + charCodeAt b))].
Proof.
  intros Ha Hb.
  assert (0 <= charCodeAt b) as Hb0 by (unfold charCodeAt; lia).
  set (n := 16 * charCodeAt a + charCodeAt b).
  assert (charCodeAt (ascii_of_nat (Z.to_nat n)) = n) as Hn.
  { unfold charCodeAt at 1. rewrite nat_ascii_embedding by (unfold n; lia).
    unfold n. lia. }
  unfold asciiToHex. cbn [map concat]. rewrite !app_nil_r.
  rewrite (toString16_one_digit a), (toString16_one_digit b) by lia.
  rewrite toString16_two_digits by (rewrite Hn; unfold n; lia).
  rewrite Hn. unfold hex_of_byte.
  rewrite Z_of_byte_of_Z by (unfold n; lia).
  replace (n / 16) with (charCodeAt a)
    by (unfold n; apply Z.div_unique with (charCodeAt b); lia).
  replace (n mod 16) with (charCodeAt b)
    by (unfold n; apply Z.mod_unique with (charCodeAt a); lia).
  reflexivity.
Qed.

Lemma asciiToHex_is_ambiguous_witness :
  asciiToHex [ascii_of_nat 1; ascii_of_nat 0] = asciiToHex [ascii_of_nat 16].
Proof.
  apply (asciiToHex_is_ambiguous (ascii_of_nat 1) (ascii_of_nat 0));
    vm_compute; repeat split; discriminate.
Defined.

Lemma hexchar_lower_case (d : Z) :
  0 <= d < 16 -> In (hexchar d) (lit "0123456789abcdef").
Proof.
  revert d; apply nibble_cases; cbn; tauto.
Qed.

(** X23.  [asciiToHex] writes one or two digits per character, each of
    them one of the sixteen characters [0123456789abcdef]. *)
Theorem asciiToHex_digits (message : str) :
  Z.of_nat (length message) <= len (asciiToHex message)
                            <= 2 * Z.of_nat (length message)
  /\ Forall (fun c => In c (lit "0123456789abcdef")) (asciiToHex message).
Proof.
  unfold asciiToHex, len.
  induction message as [|c m IH]; [split; [simpl; lia | constructor]|].
  cbn [map concat length]. rewrite length_app.
  destruct IH as [IHl IHd].
  assert (0 <= charCodeAt c < 256) as Hc
    by (unfold charCodeAt; pose proof (nat_ascii_bounded c); lia).
  destruct (Z.lt_ge_cases (charCodeAt c) 16) as [L | G].
  - rewrite toString16_one_digit by assumption. cbn [length].
    split; [lia|]. apply Forall_app. split; [|exact IHd].
    constructor; [apply hexchar_lower_case; lia | constructor].
  - rewrite toString16_two_digits by assumption.
    destruct (nibbles (byte_of_Z (charCodeAt c))) as (Hh & Hl & _).
    unfold hex_of_byte. cbn [length].
    split; [lia|]. apply Forall_app. split; [|exact IHd].
    constructor; [apply hexchar_lower_case; assumption|].
    constructor; [apply hexchar_lower_case; assumption | constructor].
Qed.

(** ** [decodeToString] *)

Lemma percent_octet_length (s rest : str) (B : Z) :
  percent_octet s = Some (B, rest) -> length s = (3 + length rest)%nat.
Proof.
  unfold percent_octet. destruct s as [|p [|a [|b r]]]; try discriminate.
  destruct (Ascii.eqb p "%"); [|discriminate].
  destruct (digit_value a); [|discriminate].
  destruct (digit_value b); [|discriminate].
  destruct ((_ <? 16) && (_ <? 16)); [|discriminate].
  intros E. injection E as _ <-. reflexivity.
Qed.

Lemma continuation_length (n : nat) (s rest : str) (acc V : Z) :
  continuation n s acc = Some (V, rest) ->
  length s = (3 * n + length rest)%nat.
Proof.
  revert s acc; induction n as [|n IH]; intros s acc; cbn [continuation].
  - intros E. injection E as _ <-. lia.
  - destruct (percent_octet s) as [[B r]|] eqn:P; [|discriminate].
    destruct (Z.land B 192 =? 128); [|discriminate].
    intros E. apply IH in E. apply percent_octet_length in P. lia.
Qed.

(** The loop of [decodeURIComponent] ends within [length s] turns. *)
Lemma Decode_fuel (fuel1 fuel2 : nat) (s : str) :
  (length s <= fuel1)%nat -> (length s <= fuel2)%nat ->
  Decode fuel1 s = Decode fuel2 s.
Proof.
  revert fuel2 s; induction fuel1 as [|f1 IH]; intros fuel2 s H1 H2.
  - destruct s; [destruct fuel2; reflexivity | simpl in H1; lia].
  - destruct s as [|c t]; [destruct fuel2; reflexivity|].
    destruct fuel2 as [|f2]; [simpl in H2; lia|].
    cbn [length] in H1, H2. cbn [Decode].
    destruct (negb (Ascii.eqb c "%")).
    { rewrite (IH f2 t) by lia. reflexivity. }
    destruct (percent_octet (c :: t)) as [[B rest]|] eqn:P; [|reflexivity].
    apply percent_octet_length in P. cbn [length] in P.
    destruct (B <? 128). { rewrite (IH f2 rest) by lia. reflexivity. }
    destruct (B <? 192); [reflexivity|].
    destruct (if B <? 224 then (2%nat, Z.land B 31)
              else if B <? 240 then (3%nat, Z.land B 15)
              else if B <? 248 then (4%nat, Z.land B 7)
              else (5%nat, 0)) as [n bits].
    destruct (continuation (n - 1) rest bits) as [[V rest']|] eqn:C;
      [|reflexivity].
    apply continuation_length in C.
    destruct (valid_code_point n V); [|reflexivity].
    rewrite (IH f2 rest') by lia. reflexivity.
Qed.

Lemma charCodeAt_ascii_of_byte (b : byte) :
  charCodeAt (ascii_of_byte b) = Z_of_byte b.
Proof. destruct b; reflexivity. Qed.

Lemma charCodeAt_range (c : ascii) : 0 <= charCodeAt c < 256.
Proof. unfold charCodeAt. pose proof (nat_ascii_bounded c). lia. Qed.

Lemma HEXCHAR_digit (d : Z) : 0 <= d < 16 -> digit_value (HEXCHAR d) = Some d.
Proof. revert d; apply nibble_cases; reflexivity. Qed.

Lemma percent_octet_escaped (c : ascii) (t : str) :
  percent_octet ("%"%char :: HEXCHAR (charCodeAt c / 16)
                 :: HEXCHAR (charCodeAt c mod 16) :: t)
  = Some (charCodeAt c, t).
Proof.
  pose proof (charCodeAt_range c) as R.
  pose proof (Z.div_mod (charCodeAt c) 16 ltac:(lia)) as D.
  pose proof (Z.mod_pos_bound (charCodeAt c) 16 ltac:(lia)) as M.
  assert (0 <= charCodeAt c / 16 < 16) as Q
    by (split; [apply Z.div_pos; lia | apply Z.div_lt_upper_bound; lia]).
  unfold percent_octet. cbn [Ascii.eqb Bool.eqb].
  rewrite !HEXCHAR_digit by assumption.
  replace (charCodeAt c / 16 <? 16) with true
    by (symmetry; apply Z.ltb_lt; lia).
  replace (charCodeAt c mod 16 <? 16) with true
    by (symmetry; apply Z.ltb_lt; lia).
  cbn [andb]. do 2 f_equal. lia.
Qed.

Lemma escape_facts :
  forallb (fun c =>
    (if escape_unreserved c then negb (Ascii.eqb c "%") else true)
    && (if 128 <=? charCodeAt c then negb (escape_unreserved c) else true))
    all_ascii
  = true.
Proof. vm_compute. reflexivity. Qed.

Lemma escape_unreserved_not_percent (c : ascii) :
  escape_unreserved c = true -> Ascii.eqb c "%" = false.
Proof.
  intros U. pose proof (ascii_cases _ escape_facts c) as C. cbv beta in C.
  rewrite U in C. apply andb_true_iff in C. destruct C as [C _].
  apply negb_true_iff in C. exact C.
Qed.

Lemma escape_high (c : ascii) :
  128 <= charCodeAt c -> escape_unreserved c = false.
Proof.
  intros G. pose proof (ascii_cases _ escape_facts c) as C. cbv beta in C.
  replace (128 <=? charCodeAt c) with true in C
    by (symmetry; apply Z.leb_le; assumption).
  apply andb_true_iff in C. destruct C as [_ C].
  apply negb_true_iff in C. exact C.
Qed.

Lemma escape_cons (c : ascii) (s : str) :
  escape (c :: s)
  = (if escape_unreserved c then [c]
     else ["%"%char; HEXCHAR (charCodeAt c / 16);
           HEXCHAR (charCodeAt c mod 16)]) ++ escape s.
Proof. reflexivity. Qed.

Lemma Decode_S (fuel : nat) (c : ascii) (t : str) :
  Decode (S fuel) (c :: t)
  = if negb (Ascii.eqb c "%")
    then option_map (cons (charCodeAt c)) (Decode fuel t)
    else
      match percent_octet (c :: t) with
      | None => None
      | Some (B, rest) =>
          if B <? 128 then option_map (cons B) (Decode fuel rest)
          else if B <? 192 then None
          else
            let '(n, bits) :=
              if B <? 224 then (2%nat, Z.land B 31)
              else if B <? 240 then (3%nat, Z.land B 15)
              else if B <? 248 then (4%nat, Z.land B 7)
              else (5%nat, 0) in
            match continuation (n - 1) rest bits with
            | None => None
            | Some (V, rest') =>
                if valid_code_point n V
                then option_map (app (utf16 V)) (Decode fuel rest')
                else None
            end
      end.
Proof. reflexivity. Qed.

(** One character below 128 in front of an escaped string. *)
Lemma decode_low_character (c : ascii) (s : str) :
  charCodeAt c < 128 ->
  decodeURIComponent (escape (c :: s))
  = option_map (cons (charCodeAt c)) (decodeURIComponent (escape s)).
Proof.
  intros L. unfold decodeURIComponent. rewrite escape_cons.
  destruct (escape_unreserved c) eqn:U.
  - cbn [app length]. rewrite Decode_S.
    rewrite escape_unreserved_not_percent by exact U. reflexivity.
  - cbn [app length]. rewrite Decode_S. cbn [Ascii.eqb Bool.eqb negb].
    rewrite percent_octet_escaped.
    replace (charCodeAt c <? 128) with true
      by (symmetry; apply Z.ltb_lt; assumption).
    rewrite (Decode_fuel _ (length (escape s))) by lia. reflexivity.
Qed.

Lemma decode_units_ascii (message : list byte) :
  Forall (fun b => Z_of_byte b < 128) message ->
  decode_units message = Some (map Z_of_byte message).
Proof.
  intros Hm. unfold decode_units.
  induction Hm as [|b m Hb _ IH]; [reflexivity|].
  cbn [code_units map]. fold (code_units m).
  rewrite decode_low_character
    by (rewrite charCodeAt_ascii_of_byte; assumption).
  rewrite IH, charCodeAt_ascii_of_byte. reflexivity.
Qed.


Lemma range_cases (P : Z -> bool) (lo n : nat) :
  forallb P (map Z.of_nat (seq lo n)) = true ->
  forall z, Z.of_nat lo <= z < Z.of_nat (lo + n) -> P z = true.
Proof.
  intros F z Hz. rewrite forallb_forall in F. apply F.
  apply in_map_iff. exists (Z.to_nat z). split; [lia|].
  apply in_seq. lia.
Qed.

Lemma lead_and_continuation_bits :
  forallb (fun z => (Z.land z 192 =? 128) && (Z.land z 63 =? z - 128))
    (map Z.of_nat (seq 128 64)) = true
  /\ forallb (fun z => Z.land z 31 =? z - 192)
       (map Z.of_nat (seq 192 32)) = true.
Proof. split; vm_compute; reflexivity. Qed.

Lemma decode_units_malformed (b : byte) (rest : list byte) :
  (128 <= Z_of_byte b < 192 \/ 248 <= Z_of_byte b
   \/ (128 <= Z_of_byte b /\ rest = [])) ->
  decode_units (b :: rest) = None.
Proof.
  intros Hb. unfold decode_units, decodeURIComponent.
  cbn [code_units map]. fold (code_units rest). rewrite escape_cons.
  pose proof (charCodeAt_ascii_of_byte b) as Cb.
  rewrite escape_high by lia.
  cbn [app length]. rewrite Decode_S. cbn [Ascii.eqb Bool.eqb negb].
  rewrite percent_octet_escaped, Cb.
  replace (Z_of_byte b <? 128) with false by (symmetry; apply Z.ltb_ge; lia).
  destruct (Z_of_byte b <? 192) eqn:L192; [reflexivity|].
  apply Z.ltb_ge in L192.
  destruct Hb as [Hb | [Hb | [_ ->]]]; [lia | |].
  - replace (Z_of_byte b <? 224) with false
      by (symmetry; apply Z.ltb_ge; lia).
    replace (Z_of_byte b <? 240) with false
      by (symmetry; apply Z.ltb_ge; lia).
    replace (Z_of_byte b <? 248) with false
      by (symmetry; apply Z.ltb_ge; lia).
    destruct (continuation _ _ _) as [[V r]|]; reflexivity.
  - cbn [code_units map escape flat_map].
    destruct (Z_of_byte b <? 224); [reflexivity|].
    destruct (Z_of_byte b <? 240); [reflexivity|].
    destruct (Z_of_byte b <? 248); reflexivity.
Qed.


Lemma decode_units_two_bytes (lead cont : byte) (rest : list byte) :
  194 <= Z_of_byte lead < 224 -> 128 <= Z_of_byte cont < 192 ->
  decode_units (lead :: cont :: rest)
  = option_map
      (cons ((Z_of_byte lead - 192) * 64 + (Z_of_byte cont - 128)))
      (decode_units rest).
Proof.
  intros Hl Hc. unfold decode_units, decodeURIComponent.
  cbn [code_units map]. fold (code_units rest).
  rewrite !escape_cons.
  pose proof (charCodeAt_ascii_of_byte lead) as Cl.
  pose proof (charCodeAt_ascii_of_byte cont) as Cc.
  rewrite !escape_high by lia.
  cbn [app length]. rewrite Decode_S. cbn [Ascii.eqb Bool.eqb negb].
  rewrite percent_octet_escaped, Cl.
  replace (Z_of_byte lead <? 128) with false
    by (symmetry; apply Z.ltb_ge; lia).
  replace (Z_of_byte lead <? 192) with false
    by (symmetry; apply Z.ltb_ge; lia).
  replace (Z_of_byte lead <? 224) with true
    by (symmetry; apply Z.ltb_lt; lia).
  cbn [Nat.sub continuation]. rewrite percent_octet_escaped, Cc.
  destruct lead_and_continuation_bits as [Fc Fl].
  pose proof (range_cases _ _ _ Fc (Z_of_byte cont) ltac:(simpl; lia)) as Bc.
  pose proof (range_cases _ _ _ Fl (Z_of_byte lead) ltac:(simpl; lia)) as Bl.
  cbv beta in Bc, Bl. apply andb_true_iff in Bc. destruct Bc as [B1 B2].
  apply Z.eqb_eq in B2, Bl. rewrite B1, B2, Bl.
  unfold valid_code_point, utf16.
  replace (128 <=? (Z_of_byte lead - 192) * 64 + (Z_of_byte cont - 128))
    with true by (symmetry; apply Z.leb_le; lia).
  replace ((Z_of_byte lead - 192) * 64 + (Z_of_byte cont - 128) <? 65536)
    with true by (symmetry; apply Z.ltb_lt; lia).
  rewrite (Decode_fuel _ (length (escape (code_units rest)))) by lia.
  destruct (Decode _ _); reflexivity.
Qed.


Lemma fromCharCode_within (max_arguments : nat) (message : list byte) :
  (length message <= max_arguments)%nat ->
  fromCharCode max_arguments message = Some (code_units message).
Proof.
  intros L. unfold fromCharCode.
  replace (length message <=? max_arguments)%nat with true
    by (symmetry; apply Nat.leb_le; assumption).
  reflexivity.
Qed.

Lemma decodeToString_within (max_arguments : nat) (message : list byte) :
  (length message <= max_arguments)%nat ->
  decodeToString max_arguments message
  = match decode_units message with
    | Some text => Text text
    | None => ThrowsURIError
    end.
Proof.
  intros L. unfold decodeToString. rewrite fromCharCode_within by assumption.
  reflexivity.
Qed.

(** X24.  On a message of bytes below 128 that the engine accepts as
    the arguments of one call, [decodeToString] returns the text whose
    character codes are the bytes, whatever the characters ([%]
    included). *)
Theorem decodeToString_ascii (max_arguments : nat) (message : list byte) :
  (length message <= max_arguments)%nat ->
  Forall (fun b => Z_of_byte b < 128) message ->
  decodeToString max_arguments message = Text (map Z_of_byte message).
Proof.
  intros L Hm. rewrite decodeToString_within by assumption.
  rewrite decode_units_ascii by assumption. reflexivity.
Qed.

Lemma decodeToString_ascii_witness :
  decodeToString 1000 [x54; x48; x25; x20] = Text [84; 72; 37; 32].
Proof.
  apply (decodeToString_ascii 1000 [x54; x48; x25; x20]).
  - simpl. lia.
  - repeat constructor.
Defined.

(** X25.  A byte from 0x80 to 0xBF (a continuation) or from 0xF8 up at
    the start of the message, and a message that is one byte of 0x80 or
    more, make [decodeToString] throw: the [URIError] of
    [decodeURIComponent] when the engine accepts the bytes as the
    arguments of one call, the [RangeError] of that call otherwise. *)
Theorem decodeToString_malformed
  (max_arguments : nat) (b : byte) (rest : list byte) :
  (128 <= Z_of_byte b < 192 \/ 248 <= Z_of_byte b
   \/ (128 <= Z_of_byte b /\ rest = [])) ->
  decodeToString max_arguments (b :: rest)
  = if (length (b :: rest) <=? max_arguments)%nat
    then ThrowsURIError else ThrowsRangeError.
Proof.
  intros Hb. destruct (length (b :: rest) <=? max_arguments)%nat eqn:L.
  - apply Nat.leb_le in L. rewrite decodeToString_within by assumption.
    rewrite decode_units_malformed by assumption. reflexivity.
  - unfold decodeToString, fromCharCode. rewrite L. reflexivity.
Qed.

Lemma decodeToString_malformed_witness :
  decodeToString 1000 [x80; x41] = ThrowsURIError
  /\ decodeToString 1000 [xc3] = ThrowsURIError
  /\ decodeToString 1 [x80; x41] = ThrowsRangeError.
Proof.
  split; [|split].
  - apply (decodeToString_malformed 1000 x80 [x41]). left.
    change (Z_of_byte x80) with 128. lia.
  - apply (decodeToString_malformed 1000 xc3 []). right; right.
    change (Z_of_byte xc3) with 195. split; [lia | reflexivity].
  - apply (decodeToString_malformed 1 x80 [x41]). left.
    change (Z_of_byte x80) with 128. lia.
Defined.

(** X26.  In a message that the engine accepts as the arguments of one
    call, a lead byte from 0xC2 to 0xDF followed by a continuation byte
    is read as one character, of code
    [(lead - 0xC0) * 64 + (continuation - 0x80)], before the text of the
    bytes that follow; the call throws when those bytes make it
    throw. *)
Theorem decodeToString_two_bytes
  (max_arguments : nat) (lead cont : byte) (rest : list byte) :
  (length (lead :: cont :: rest) <= max_arguments)%nat ->
  194 <= Z_of_byte lead < 224 -> 128 <= Z_of_byte cont < 192 ->
  decodeToString max_arguments (lead :: cont :: rest)
  = match decodeToString max_arguments rest with
    | Text text =>
        Text ((Z_of_byte lead - 192) * 64 + (Z_of_byte cont - 128) :: text)
    | thrown => thrown
    end.
Proof.
  intros L Hl Hc. cbn [length] in L.
  rewrite !decodeToString_within by (cbn [length]; lia).
  rewrite decode_units_two_bytes by assumption.
  destruct (decode_units rest); reflexivity.
Qed.

Lemma decodeToString_two_bytes_witness :
  decodeToString 1000 [xc3; xa9; x21] = Text [233; 33].
Proof.
  apply (decodeToString_two_bytes 1000 xc3 xa9 [x21]).
  - simpl. lia.
  - change (Z_of_byte xc3) with 195. lia.
  - change (Z_of_byte xa9) with 169. lia.
Defined.

(** Beyond the limit of the engine the call throws its [RangeError],
    whatever the bytes. *)
Lemma decodeToString_too_long (max_arguments : nat) (message : list byte) :
  (max_arguments < length message)%nat ->
  decodeToString max_arguments message = ThrowsRangeError.
Proof.
  intros L. unfold decodeToString, fromCharCode.
  replace (length message <=? max_arguments)%nat with false
    by (symmetry; apply Nat.leb_gt; assumption).
  reflexivity.
Qed.

Lemma decodeToString_too_long_witness :
  decodeToString 2 [x54; x48; x49] = ThrowsRangeError.
Proof. apply (decodeToString_too_long 2 [x54; x48; x49]). simpl. lia. Defined.

(* ================================================================= *)
(** * The Substrate payload in the layout of the specification *)

Section SpecLayout.
Context `{Host}.
Variables (reserved c1 c2 i1 i2 : byte) (multipartComplete : bool).
Variable networks : NetworkMap.
Variables (scheme command : byte).
Variables (publicKey signingPayload specVersionBytes genesis : list byte).
Variable network : SubstrateNetworkParams.
Hypothesis is_complete : complete c1 c2 multipartComplete.
Hypothesis publicKey_length : length publicKey = 32%nat.
Hypothesis specVersion_length : length specVersionBytes = 4%nat.
Hypothesis genesis_length : length genesis = 32%nat.
Hypothesis known : Map_get networks (u8aToHex genesis true) = Some network.

Local Abbreviation bytes :=
  (spec_substrate_frame reserved c1 c2 i1 i2 scheme command
     publicKey signingPayload specVersionBytes genesis).

(** The code takes for payload the signing payload and the four bytes
    that follow it. *)
Lemma spec_substrate_frame_payload :
  bytes = reserved :: c1 :: c2 :: i1 :: i2 :: x53 :: scheme :: command
          :: publicKey ++ (signingPayload ++ specVersionBytes) ++ genesis.
Proof. unfold spec_substrate_frame. rewrite <- app_assoc. reflexivity. Qed.

(** C2, as amended.  For a complete Substrate payload in the layout of
    the specification, with command [SIGN_MORTAL] or [SIGN_IMMORTAL]
    and a known genesis hash, [oversized] and [isHash] are true exactly
    when the signing payload together with the four specVersion bytes
    that follow it counts more than 256 bytes, that is when the signing
    payload has more than 252 bytes; and the payload is decoded
    whenever the imported functions return. *)
Theorem oversized_counts_specVersion_bytes :
  command = x00 \/ command = x02 ->
  (forall d, constructDataFromBytes bytes multipartComplete networks
             = Return (Substrate d) ->
             oversized d
             = Some (256 <? Z.of_nat (length signingPayload) + 4)
             /\ isHash d
                = Some (256 <? Z.of_nat (length signingPayload) + 4)
             /\ rawPayload d = Some (signingPayload ++ specVersionBytes))
  /\ (forall offset address,
        compactFromU8a (signingPayload ++ specVersionBytes) = Return offset ->
        (256 < Z.of_nat (length signingPayload) + 4 ->
         exists hash,
           blake2b (u8aToHex
                      (skipn offset (signingPayload ++ specVersionBytes))
                      false)
           = Return hash) ->
        encodeAddress publicKey (prefix network) = Return address ->
        exists d, constructDataFromBytes bytes multipartComplete networks
                  = Return (Substrate d)).
Proof.
  intros Hcmd. rewrite spec_substrate_frame_payload.
  assert (Z.of_nat (length (signingPayload ++ specVersionBytes))
          = Z.of_nat (length signingPayload) + 4) as Len
    by (rewrite length_app, specVersion_length; lia).
  rewrite <- Len.
  exact (oversized_iff_more_than_256 reserved c1 c2 i1 i2 multipartComplete
           networks scheme command publicKey
           (signingPayload ++ specVersionBytes) genesis
           is_complete publicKey_length genesis_length network Hcmd known).
Qed.

(** C6, as amended.  For a complete Substrate payload in the layout of
    the specification, with command [SIGN_HASH] or [SIGN_MSG] and a
    known genesis hash, the decoded result has the action [signData],
    is never oversized, has [isHash] true exactly for [SIGN_HASH], and
    its data is the signing payload followed by the four specVersion
    bytes, written in hexadecimal after [0x], neither hashed nor
    stripped of a compact prefix; and the payload is decoded whenever
    the address encoding returns. *)
Theorem sign_data_keeps_specVersion_bytes :
  command = x01 \/ command = x03 ->
  (forall d, constructDataFromBytes bytes multipartComplete networks
             = Return (Substrate d) ->
             action d = Some signData
             /\ oversized d = Some false
             /\ isHash d = Some (Byte.eqb command x01)
             /\ data d
                = Some (HexString
                          (u8aToHex (signingPayload ++ specVersionBytes)
                             true)))
  /\ (forall address,
        encodeAddress publicKey (prefix network) = Return address ->
        exists d, constructDataFromBytes bytes multipartComplete networks
                  = Return (Substrate d)).
Proof.
  intros Hcmd. rewrite spec_substrate_frame_payload.
  exact (sign_hash_and_sign_msg reserved c1 c2 i1 i2 multipartComplete
           networks scheme command publicKey
           (signingPayload ++ specVersionBytes) genesis
           is_complete publicKey_length genesis_length network Hcmd known).
Qed.

End SpecLayout.

(** C2 as stated fails: a signing payload of exactly 256 bytes, followed
    by its four specVersion bytes and the genesis hash, is oversized. *)
Lemma oversized_counterexample :
  Z.of_nat (length (repeat x04 256)) = 256
  /\ exists d,
       constructDataFromBytes (H := sample_host)
         (spec_substrate_frame x00 x00 x01 x00 x00 x01 x00
            sample_publicKey (repeat x04 256) [x00; x00; x00; x09]
            sample_genesis)
         true sample_networks
       = Return (Substrate d)
       /\ oversized d = Some true /\ isHash d = Some true.
Proof.
  split; [reflexivity|]. eexists. split; [vm_compute; reflexivity|].
  split; reflexivity.
Qed.

(** The boundary of C2 as amended: a signing payload of 252 bytes is
    not oversized, one of 253 bytes is. *)
Lemma oversized_counts_specVersion_bytes_witness :
  (exists d, constructDataFromBytes (H := sample_host)
               (spec_substrate_frame x00 x00 x01 x00 x00 x01 x00
                  sample_publicKey (repeat x04 252) [x00; x00; x00; x09]
                  sample_genesis)
               true sample_networks
             = Return (Substrate d)
             /\ oversized d = Some false /\ isHash d = Some false)
  /\ (exists d, constructDataFromBytes (H := sample_host)
                  (spec_substrate_frame x00 x00 x01 x00 x00 x01 x02
                     sample_publicKey (repeat x04 253) [x00; x00; x00; x09]
                     sample_genesis)
                  true sample_networks
                = Return (Substrate d)
                /\ oversized d = Some true /\ isHash d = Some true).
Proof.
  split.
  - destruct (oversized_counts_specVersion_bytes (H := sample_host)
                x00 x00 x01 x00 x00 true sample_networks x01 x00
                sample_publicKey (repeat x04 252) [x00; x00; x00; x09]
                sample_genesis {| prefix := 2 |}
                sample_complete sample_publicKey_length eq_refl
                sample_genesis_length sample_network_known
                (or_introl eq_refl)) as [Flags Decoded].
    assert (256 < Z.of_nat (length (repeat x04 252)) + 4 ->
            exists hash,
              blake2b (Host := sample_host)
                (u8aToHex
                   (skipn 1 (repeat x04 252 ++ [x00; x00; x00; x09])) false)
              = Return hash) as Hash
      by (intros Over; vm_compute in Over; discriminate Over).
    destruct (Decoded _ _ eq_refl Hash eq_refl) as [d E].
    exists d. split; [exact E|].
    destruct (Flags d E) as (O & I & _). split; [exact O | exact I].
  - destruct (oversized_counts_specVersion_bytes (H := sample_host)
                x00 x00 x01 x00 x00 true sample_networks x01 x02
                sample_publicKey (repeat x04 253) [x00; x00; x00; x09]
                sample_genesis {| prefix := 2 |}
                sample_complete sample_publicKey_length eq_refl
                sample_genesis_length sample_network_known
                (or_intror eq_refl)) as [Flags Decoded].
    assert (256 < Z.of_nat (length (repeat x04 253)) + 4 ->
            exists hash,
              blake2b (Host := sample_host)
                (u8aToHex
                   (skipn 1 (repeat x04 253 ++ [x00; x00; x00; x09])) false)
              = Return hash) as Hash
      by (intros _; eexists; reflexivity).
    destruct (Decoded _ _ eq_refl Hash eq_refl) as [d E].
    exists d. split; [exact E|].
    destruct (Flags d E) as (O & I & _). split; [exact O | exact I].
Defined.

(** C6 as stated fails: the data of the result is not the signing
    payload 54 48 49 53 20 49 53 21 in hexadecimal, it ends with the
    four specVersion bytes 00 00 00 09. *)
Lemma sign_data_counterexample :
  exists d,
    constructDataFromBytes (H := sample_host)
      (spec_substrate_frame x00 x00 x01 x00 x00 x01 x03
         sample_publicKey [x54; x48; x49; x53; x20; x49; x53; x21]
         [x00; x00; x00; x09] sample_genesis)
      true sample_networks
    = Return (Substrate d)
    /\ data d = Some (HexString (lit "0x544849532049532100000009"))
    /\ data d
       <> Some (HexString
                  (u8aToHex [x54; x48; x49; x53; x20; x49; x53; x21] true)).
Proof.
  eexists. split; [vm_compute; reflexivity|].
  split; [reflexivity | vm_compute; discriminate].
Qed.

Lemma sign_data_keeps_specVersion_bytes_witness :
  exists d,
    constructDataFromBytes (H := sample_host)
      (spec_substrate_frame x00 x00 x01 x00 x00 x01 x03
         sample_publicKey [x54; x48; x49; x53; x20; x49; x53; x21]
         [x00; x00; x00; x09] sample_genesis)
      true sample_networks
    = Return (Substrate d)
    /\ action d = Some signData
    /\ oversized d = Some false
    /\ isHash d = Some false
    /\ data d = Some (HexString (lit "0x544849532049532100000009")).
Proof.
  destruct (sign_data_keeps_specVersion_bytes (H := sample_host)
              x00 x00 x01 x00 x00 true sample_networks x01 x03
              sample_publicKey [x54; x48; x49; x53; x20; x49; x53; x21]
              [x00; x00; x00; x09] sample_genesis {| prefix := 2 |}
              sample_complete sample_publicKey_length
              sample_genesis_length sample_network_known
              (or_intror eq_refl)) as [Fields Decoded].
  destruct (Decoded _ eq_refl) as [d E].
  exists d. split; [exact E|]. exact (Fields d E).
Defined.

(** C5 as amended, on an input with its header and on an input of two
    bytes, whose partial data has no frame index. *)
Lemma partial_data_iff_every_input_witness :
  (exists p, constructDataFromBytes (H := sample_host)
               [x00; x00; x03; x00; x02; x99] false []
             = Return (MultiPart p)
             /\ frameCount p = Some 3 /\ currentFrame p = Some 2)
  /\ (exists p, constructDataFromBytes (H := sample_host)
                  [x00; x02] false []
                = Return (MultiPart p)
                /\ frameCount p = Some 2 /\ currentFrame p = None)
  /\ ~ (exists p, constructDataFromBytes (H := sample_host)
                    [x00; x00; x33; x00; x00] false []
                  = Return (MultiPart p)).
Proof.
  split; [|split].
  - destruct (partial_data_iff_every_input (H := sample_host)
                [x00; x00; x03; x00; x02; x99] false []) as [[_ Back] Carry].
    destruct Back as [p E].
    { split; [exists 3; split; [reflexivity | lia] | reflexivity]. }
    exists p. split; [exact E|].
    destruct (Carry p E) as (F & C & _). split; [exact F | exact C].
  - destruct (partial_data_iff_every_input (H := sample_host)
                [x00; x02] false []) as [[_ Back] Carry].
    destruct Back as [p E].
    { split; [exists 2; split; [reflexivity | lia] | reflexivity]. }
    exists p. split; [exact E|].
    destruct (Carry p E) as (F & C & _). split; [exact F | exact C].
  - intros E.
    apply (partial_data_iff_every_input (H := sample_host)
             [x00; x00; x33; x00; x00] false []) in E.
    destruct E as [(count & E & Hc) _]. injection E as <-.
    vm_compute in Hc. destruct Hc as [_ Hc]. apply Hc. reflexivity.
Defined.
